(** * geekscraper: a shallow embedding of [geekscraper.py]

    The scraper fetches paginated benchmark listings, extracts one record
    per listing container, merges the pages, computes summary statistics and
    writes / re-reads the collection as JSON, XML or CSV.

    Conventions of the embedding.
    - Python [str] is [string]; a character is its code point, so the model
      covers text whose code points are below 256 (Latin-1).
    - A record is the Python dict the code builds: a [gmap string pyval].
    - Code that can raise runs in the monad [M]: the world (request log and
      file system) is threaded through, and a result is [inl e] (an
      exception derived from [Exception] was raised) or [inr v].
    - A file holds a document (JSON values, XML elements, CSV rows), not
      text: the text encodings belong to the libraries.
    - Diagnostic printing ([verbose]) and wall-clock timing are left out:
      they feed nothing back into the computation. *)

From Stdlib Require Import ZArith Ascii String List Lia.
From stdpp Require Import base option list gmap strings.

#[local] Set Warnings "-register-all".

Local Open Scope Z_scope.

(** ** Python built-ins on text *)

Module Py.

Definition code (c : ascii) : N := N_of_ascii c.

(** [str.isspace] on one character, for code points below 256:
    TAB..CR, FS..US, SPACE, NEL (0x85) and NBSP (0xA0). *)
Definition isspace_char (c : ascii) : bool :=
  let n := code c in
  (((9 <=? n) && (n <=? 13)) || ((28 <=? n) && (n <=? 32))
   || (n =? 133) || (n =? 160))%N.

(** ['0'..'9']: the only decimal digits below 256. *)
Definition isdecimal_char (c : ascii) : bool :=
  let n := code c in ((48 <=? n) && (n <=? 57))%N.

(** [str.isdigit] on one character also accepts the superscript digits
    U+00B2, U+00B3 and U+00B9, which are digits but not decimals. *)
Definition isdigit_char (c : ascii) : bool :=
  let n := code c in
  (isdecimal_char c || (n =? 178) || (n =? 179) || (n =? 185))%N.

Fixpoint all_chars (p : ascii -> bool) (s : string) : bool :=
  match s with
  | EmptyString => true
  | String c r => p c && all_chars p r
  end.

(** [s.isdigit()]: non-empty and every character is a digit. *)
Definition isdigit (s : string) : bool :=
  match s with
  | EmptyString => false
  | String _ _ => all_chars isdigit_char s
  end.

Fixpoint lstrip_with (sp : ascii -> bool) (s : string) : string :=
  match s with
  | EmptyString => EmptyString
  | String c r => if sp c then lstrip_with sp r else s
  end.

Fixpoint rstrip_with (sp : ascii -> bool) (s : string) : string :=
  match s with
  | EmptyString => EmptyString
  | String c r =>
      match rstrip_with sp r with
      | EmptyString => if sp c then EmptyString else String c EmptyString
      | r' => String c r'
      end
  end.

Definition strip_with (sp : ascii -> bool) (s : string) : string :=
  rstrip_with sp (lstrip_with sp s).

(** [s.strip()] *)
Definition strip (s : string) : string := strip_with isspace_char s.

(** [sep.join(parts)] *)
Fixpoint join (sep : string) (parts : list string) : string :=
  match parts with
  | [] => EmptyString
  | [p] => p
  | p :: rest => p +:+ sep +:+ join sep rest
  end.

(** [s.endswith(suffix)] *)
Definition endswith (s suffix : string) : bool :=
  let n := String.length s in
  let m := String.length suffix in
  if (m <=? n)%nat then String.eqb (substring (n - m) m s) suffix else false.

Definition digit_value (c : ascii) : Z := Z.of_N (code c) - 48.

(** The digits of an integer literal: decimal digits, where a single
    underscore may separate two digits. *)
Fixpoint int_digits (acc : Z) (s : string) : option Z :=
  match s with
  | EmptyString => Some acc
  | String c r =>
      if isdecimal_char c then int_digits (10 * acc + digit_value c) r
      else if Ascii.eqb c "_" then
        match r with
        | String d r' =>
            if isdecimal_char d then int_digits (10 * acc + digit_value d) r'
            else None
        | EmptyString => None
        end
      else None
  end.

Definition int_literal (s : string) : option Z :=
  match s with
  | String c r => if isdecimal_char c then int_digits (digit_value c) r else None
  | EmptyString => None
  end.

(** White space [int] skips around the literal: the C [isspace] set, plus NEL
    and NBSP (which [int] maps to a blank before parsing). FS..US are white
    space for [strip] but not for [int]. *)
Definition int_space (c : ascii) : bool :=
  let n := code c in
  (((9 <=? n) && (n <=? 13)) || (n =? 32) || (n =? 133) || (n =? 160))%N.

(** [int(s)] in base 10; [None] stands for [ValueError]. *)
Definition int (s : string) : option Z :=
  match strip_with int_space s with
  | EmptyString => None
  | String c r =>
      if Ascii.eqb c "+" then int_literal r
      else if Ascii.eqb c "-" then Z.opp <$> int_literal r
      else int_literal (String c r)
  end.

(** [str(n)] for an integer. *)
Definition digit_char (d : Z) : ascii := ascii_of_N (Z.to_N (48 + d)).

Fixpoint str_pos_fuel (fuel : nat) (n : Z) (acc : string) : string :=
  match fuel with
  | O => acc
  | S f =>
      let acc' := String (digit_char (n mod 10)) acc in
      if n <? 10 then acc' else str_pos_fuel f (n / 10) acc'
  end.

Definition str_of_int (n : Z) : string :=
  if n <? 0 then String "-" (str_pos_fuel (Z.to_nat (Z.log2 (- n)) + 1) (- n) EmptyString)
  else str_pos_fuel (Z.to_nat (Z.log2 n) + 1) n EmptyString.

(** [urllib.parse.quote_plus(s)]: letters, digits and [_.-~] are kept, a
    blank becomes [+], every other character is UTF-8 encoded and each byte
    written as [%XX]. *)
Definition hex_char (d : N) : ascii :=
  ascii_of_N (if (d <? 10)%N then 48 + d else 55 + d)%N.

Definition percent (b : N) : string :=
  String "%" (String (hex_char (b / 16)) (String (hex_char (b mod 16)) EmptyString)).

Definition is_unreserved (c : ascii) : bool :=
  let n := code c in
  (((65 <=? n) && (n <=? 90)) || ((97 <=? n) && (n <=? 122))
   || ((48 <=? n) && (n <=? 57))
   || (n =? 95) || (n =? 46) || (n =? 45) || (n =? 126))%N.

Definition quote_char (c : ascii) : string :=
  let n := code c in
  if is_unreserved c then String c EmptyString
  else if (n =? 32)%N then "+"
  else if (n <? 128)%N then percent n
  else percent (192 + n / 64) +:+ percent (128 + n mod 64).

Fixpoint quote_plus (s : string) : string :=
  match s with
  | EmptyString => EmptyString
  | String c r => quote_char c +:+ quote_plus r
  end.

(** [min] / [max] of a non-empty sequence of integers. *)
Definition min_list (x : Z) (xs : list Z) : Z := fold_left Z.min xs x.
Definition max_list (x : Z) (xs : list Z) : Z := fold_left Z.max xs x.

End Py.


(** ** Exceptions

    Every exception below derives from Python's [Exception], so each is
    caught by the [except Exception] handlers of the scraper. [LibraryError]
    stands for whatever else a library raises (connection errors, timeouts,
    parser errors, ...). *)
Inductive exn :=
| KeyError (key : string)
| AttributeError
| ValueError
| TypeError
| HTTPError (status : Z)
| LibraryError (name : string).

(** A computation that returns or raises. *)
Definition res (A : Type) : Type := exn + A.

(** Sequencing, shared by pure code that may raise ([res]) and effectful
    code ([M], below). *)
Class Monad (T : Type -> Type) := {
  ret : forall {A}, A -> T A;
  bind : forall {A B}, T A -> (A -> T B) -> T B
}.

Notation "x <- m ;; k" := (bind m (fun x => k))
  (at level 100, m at next level, k at level 200, right associativity,
   format "'[v' x  <-  m  ;; '/' k ']'").

#[global] Instance res_monad : Monad res := {|
  ret := fun A a => inr a;
  bind := fun A B m k =>
    match m with
    | inl e => inl e
    | inr a => k a
    end
|}.

(** ** Records and on-disk documents *)

(** The values a record holds: [None] or a [str]. *)
Inductive pyval :=
| PNone
| PStr (s : string).

#[global] Instance pyval_eq_dec : EqDecision pyval.
Proof. solve_decision. Defined.

(** A benchmark entry is a dict from field names to values. *)
Abbreviation record := (gmap string pyval).

(** [d[k]] *)
Definition getitem {V} (d : gmap string V) (k : string) : res V :=
  match d !! k with
  | Some v => inr v
  | None => inl (KeyError k)
  end.

(** [dict(pairs)]: a later pair overrides an earlier one with the same key. *)
Definition dict_of_pairs {V} (pairs : list (string * V)) : gmap string V :=
  fold_left (fun d kv => <[kv.1 := kv.2]> d) pairs ∅.

(** JSON document: what [json.dump] writes for a list of such dicts and what
    [json.load] reads back; an object keeps its members in file order. *)
Inductive jval :=
| JNull
| JString (s : string).

Definition json_doc := list (list (string * jval)).

(** XML document as stored: an element without text and an element with
    empty text are the same on disk (both are written as an empty tag). *)
Inductive xml_doc :=
| XmlElem (tag : string) (text : string) (children : list xml_doc).

(** CSV document: rows of cells. *)
Definition csv_doc := list (list string).

Inductive document :=
| DJson (j : json_doc)
| DXml (x : xml_doc)
| DCsv (c : csv_doc).

(** ** The world and the monad of effectful code *)

Record world := World {
  requests : list string;          (* URLs requested so far, oldest first *)
  files : gmap string document     (* file system: path -> content *)
}.

Definition M (A : Type) : Type := world -> res A * world.

#[global] Instance M_monad : Monad M := {|
  ret := fun A a w => (inr a, w);
  bind := fun A B m k w =>
    match m w with
    | (inl e, w') => (inl e, w')
    | (inr a, w') => k a w'
    end
|}.

Definition raise {A} (e : exn) : M A := fun w => (inl e, w).

(** A pure computation used inside effectful code. *)
Definition lift {A} (r : res A) : M A := fun w => (r, w).

(** [try: body  except Exception: handler] *)
Definition try_except {A} (body : M A) (handler : exn -> M A) : M A :=
  fun w =>
    match body w with
    | (inl e, w') => handler e w'
    | (inr a, w') => (inr a, w')
    end.

(** [for x in xs: body(x)], collecting what each iteration returns. *)
Fixpoint for_each {A B} (body : A -> M B) (xs : list A) : M (list B) :=
  match xs with
  | [] => ret []
  | x :: rest =>
      y <- body x ;;
      ys <- for_each body rest ;;
      ret (y :: ys)
  end.

(** The same loop for pure code that may raise. *)
Fixpoint for_each_res {A B} (body : A -> res B) (xs : list A) : res (list B) :=
  match xs with
  | [] => ret []
  | x :: rest =>
      y <- body x ;;
      ys <- for_each_res body rest ;;
      ret (y :: ys)
  end.

(** ** The HTTP client ([requests]) *)

Module requests.

Record Response := { status_code : Z; text : string }.

(** [Response.raise_for_status()]: raises for a 4xx or 5xx status only. *)
Definition raise_for_status (r : Response) : res unit :=
  if (400 <=? status_code r) && (status_code r <? 600)
  then inl (HTTPError (status_code r))
  else inr tt.

(** What the network answers to a request, given the requests made before:
    a response, or an exception (connection error, timeout, ...). *)
Definition network := list string -> string -> res Response.

(** [requests.get(url)]: the request is logged, the network answers. *)
Definition get (net : network) (url : string) : M Response :=
  fun w => (net (requests w) url,
            {| requests := requests w ++ [url]; files := files w |}).

End requests.

(** ** The markup tree ([bs4]) *)

Module bs4.

(** A parsed document: text nodes and tags. [classes] is the value of the
    [class] attribute, which the parser splits into a list; [attrs] holds
    the other attributes. The parser gives tag names in lower case. *)
Inductive node :=
| NavigableString (s : string)
| Tag (name : string) (classes : list string) (attrs : gmap string string)
      (contents : list node).

(** A tag together with its ancestors, nearest first: selectors look at
    both. An ancestor is remembered by name and classes. *)
Record located := Loc {
  parents : list (string * list string);
  self : node
}.

(** The [BeautifulSoup] object is itself a tag, named [[document]]. *)
Definition soup_of (contents : list node) : located :=
  {| parents := []; self := Tag "[document]" [] ∅ contents |}.

(** A compound selector [name.class1.class2...]. *)
Record compound := Compound { sel_name : string; sel_classes : list string }.

(** A complex selector: compounds joined by the descendant combinator,
    outermost first. *)
Definition selector := list compound.

Definition has_class (classes : list string) (k : string) : bool :=
  existsb (String.eqb k) classes.

Definition matches_compound (c : compound) (name : string) (classes : list string) : bool :=
  String.eqb (sel_name c) name && forallb (has_class classes) (sel_classes c).

(** The ancestors above the nearest ancestor that matches [c]. *)
Fixpoint find_ancestor (c : compound) (ps : list (string * list string))
  : option (list (string * list string)) :=
  match ps with
  | [] => None
  | p :: ps' => if matches_compound c p.1 p.2 then Some ps' else find_ancestor c ps'
  end.

(** [cs], innermost first, are matched by ancestors going outwards. *)
Fixpoint matches_ancestors (cs : list compound) (ps : list (string * list string)) : bool :=
  match cs with
  | [] => true
  | c :: cs' =>
      match find_ancestor c ps with
      | Some ps' => matches_ancestors cs' ps'
      | None => false
      end
  end.

Definition matches (sel : selector) (el : located) : bool :=
  match self el, rev sel with
  | Tag name classes _ _, c :: outer =>
      matches_compound c name classes && matches_ancestors outer (parents el)
  | _, _ => false
  end.

(** All tags strictly below a node, in document order. *)
Fixpoint descendants (ps : list (string * list string)) (n : node) : list located :=
  match n with
  | NavigableString _ => []
  | Tag name classes _ contents =>
      let ps' := (name, classes) :: ps in
      (fix go (l : list node) : list located :=
         match l with
         | [] => []
         | c :: l' =>
             match c with
             | Tag _ _ _ _ => [{| parents := ps'; self := c |}]
             | NavigableString _ => []
             end ++ descendants ps' c ++ go l'
         end) contents
  end.

(** [el.select(sel)]: the descendants of [el] that match; the ancestors a
    selector asks for may lie above [el]. *)
Definition select (sel : selector) (el : located) : list located :=
  filter (fun d => matches sel d = true) (descendants (parents el) (self el)).

(** [el.select_one(sel)] *)
Definition select_one (sel : selector) (el : located) : option located :=
  head (select sel el).

(** The text nodes below a node, in document order. *)
Fixpoint strings (n : node) : list string :=
  match n with
  | NavigableString s => [s]
  | Tag _ _ _ contents =>
      (fix go (l : list node) : list string :=
         match l with
         | [] => []
         | c :: l' => strings c ++ go l'
         end) contents
  end.

(** [el.text] *)
Definition text (el : located) : string := Py.join "" (strings (self el)).

(** [el.stripped_strings]: each text node stripped, empty ones dropped. *)
Definition stripped_strings (el : located) : list string :=
  filter (fun s => s ≠ EmptyString) (Py.strip <$> strings (self el)).

(** [el['href']] and friends. *)
Definition attr (el : located) (k : string) : res string :=
  match self el with
  | Tag _ _ attrs _ => getitem attrs k
  | NavigableString _ => inl (KeyError k)
  end.

(** The parser: markup text to document, or an exception. *)
Definition parser := string -> res located.

End bs4.

(** ** The scraper *)

(** The selectors the scraper uses. *)
Definition sel_list_col : bs4.selector :=            (* 'div.list-col' *)
  [bs4.Compound "div" ["list-col"]].
Definition sel_result_link : bs4.selector :=         (* 'div.col-12.col-lg-4 a' *)
  [bs4.Compound "div" ["col-12"; "col-lg-4"]; bs4.Compound "a" []].
Definition sel_model : bs4.selector :=               (* 'span.list-col-model' *)
  [bs4.Compound "span" ["list-col-model"]].
Definition sel_score : bs4.selector :=               (* 'span.list-col-text-score' *)
  [bs4.Compound "span" ["list-col-text-score"]].
Definition sel_pagination : bs4.selector :=          (* 'ul.pagination' *)
  [bs4.Compound "ul" ["pagination"]].
Definition sel_page_link : bs4.selector :=           (* 'a.page-link' *)
  [bs4.Compound "a" ["page-link"]].

Definition base_url : string := "https://browser.geekbench.com".

(** [f"{base_url}/search?q={quote_plus(query)}"] *)
Definition search_url_of (query : string) : string :=
  base_url +:+ "/search?q=" +:+ Py.quote_plus query.

(** The body of the inner [try] of [parse_page]: the record of one listing
    container, or the exception its extraction raises. *)
Definition extract_record (result : bs4.located) : res record :=
  let result_link := bs4.select_one sel_result_link result in
  result_url <-
    match result_link with
    | Some a => href <- bs4.attr a "href" ;; ret (PStr (base_url +:+ href))
    | None => ret PNone
    end ;;
  let system :=
    match result_link with
    | Some a => Py.strip (bs4.text a)
    | None => "Unknown"
    end in
  model <-
    match bs4.select_one sel_model result with
    | Some m => ret (Py.join " " (bs4.stripped_strings m))
    | None => inl AttributeError
    end ;;
  let scores := bs4.select sel_score result in
  let single_core :=
    match scores !! 0%nat with
    | Some s => Py.strip (bs4.text s)
    | None => "N/A"
    end in
  let multi_core :=
    match scores !! 1%nat with
    | Some s => Py.strip (bs4.text s)
    | None => "N/A"
    end in
  ret (<["system" := PStr system]>
        (<["model" := PStr model]>
        (<["single_core" := PStr single_core]>
        (<["multi_core" := PStr multi_core]>
        (<["url" := result_url]> ∅))))).

(** The [for result in soup.select('div.list-col')] loop: a container whose
    extraction raises is skipped, the others are appended in order. *)
Definition extract_page (soup : bs4.located) : list record :=
  fold_left
    (fun page_results result =>
       match extract_record result with
       | inr r => page_results ++ [r]
       | inl _ => page_results
       end)
    (bs4.select sel_list_col soup) [].

(** Total page count read off the first page (the pagination scan). *)
Definition total_pages (soup : bs4.located) : res Z :=
  match bs4.select_one sel_pagination soup with
  | None => ret 1
  | Some pagination =>
      let page_links :=
        filter (fun a => Py.isdigit (Py.strip (bs4.text a)) = true)
               (bs4.select sel_page_link pagination) in
      match page_links with
      | [] => ret 1
      | a :: rest =>
          n <- from_option inr (inl ValueError) (Py.int (bs4.text a)) ;;
          ns <- for_each_res
                 (fun a => from_option inr (inl ValueError) (Py.int (bs4.text a)))
                 rest ;;
          ret (Py.max_list n ns)
      end
  end.

(** [min(total_pages, max_pages) if max_pages else total_pages]: a cap of
    [None] or [0] is falsy. *)
Definition pages_to_fetch (total : Z) (max_pages : option Z) : Z :=
  match max_pages with
  | None => total
  | Some cap => if cap =? 0 then total else Z.min total cap
  end.

(** [range(lo, hi)] *)
Definition range (lo hi : Z) : list Z :=
  (fun k => lo + Z.of_nat k) <$> seq 0 (Z.to_nat (hi - lo)).

(** The page URLs: the search URL, then pages [2..pages]. *)
Definition page_urls (search_url : string) (pages : Z) : list string :=
  search_url ::
  ((fun page => search_url +:+ "&page=" +:+ Py.str_of_int page) <$> range 2 (pages + 1)).

(** [enumerate(xs, start)] *)
Definition enumerate {A} (start : nat) (xs : list A) : list (nat * A) :=
  zip (seq start (length xs)) xs.

(** [concurrent.futures.as_completed]: the futures in the order in which
    they complete; [finish i] is the completion time of future number [i]. *)
Fixpoint insert_completed {A} (finish : nat -> nat) (x : nat * A) (done : list (nat * A))
  : list (nat * A) :=
  match done with
  | [] => [x]
  | y :: rest =>
      if (finish x.1 <? finish y.1)%nat then x :: y :: rest
      else y :: insert_completed finish x rest
  end.

Definition as_completed {A} (finish : nat -> nat) (futures : list (nat * A)) : list (nat * A) :=
  fold_left (fun done x => insert_completed finish x done) futures [].

Section Scraper.

(** The collaborators: the network behind [requests.get], the markup
    parser behind [BeautifulSoup(text, 'html.parser')], and the order in
    which the pool's futures complete. *)
Variable net : requests.network.
Variable html_parser : bs4.parser.
Variable finish : nat -> nat.

Definition parse_page (url : string) (page_num : nat) : M (list record) :=
  try_except
    (response <- requests.get net url ;;
     _ <- lift (requests.raise_for_status response) ;;
     soup <- lift (html_parser (requests.text response)) ;;
     ret (extract_page soup))
    (fun _ => ret []).

(** The discovery stage of [parse_geekbench]: first-page fetch and
    pagination scan. *)
Definition discover (search_url : string) : M Z :=
  first_page <- requests.get net search_url ;;
  _ <- lift (requests.raise_for_status first_page) ;;
  soup <- lift (html_parser (requests.text first_page)) ;;
  lift (total_pages soup).

(** [executor.submit(parse_page, url, i, verbose)]: the future of page
    number [i], here with the result it will hold. *)
Definition submit (job : nat * string) : M (nat * list record) :=
  r <- parse_page job.2 job.1 ;;
  ret (job.1, r).

(** What follows discovery: the URL list, the pool, the merge. The pool
    refuses a size below 1 with [ValueError]. *)
Definition fetch_all (search_url : string) (total : Z) (max_pages : option Z)
           (threads : Z) : M (list record) :=
  let urls := page_urls search_url (pages_to_fetch total max_pages) in
  _ <- (if threads <=? 0 then raise ValueError else ret tt) ;;
  futures <- for_each submit (enumerate 1 urls) ;;
  ret (concat (snd <$> as_completed finish futures)).

Definition parse_geekbench (query : string) (max_pages : option Z) (threads : Z)
  : M (list record) :=
  let search_url := search_url_of query in
  try_except
    (total <- discover search_url ;;
     fetch_all search_url total max_pages threads)
    (fun _ => ret []).

End Scraper.

(** ** Statistics *)

(** [v.isdigit()] on a record value; [None] has no such method. *)
Definition str_isdigit (v : pyval) : res bool :=
  match v with
  | PStr s => ret (Py.isdigit s)
  | PNone => inl AttributeError
  end.

(** [int(v)] on a record value. *)
Definition py_int (v : pyval) : res Z :=
  match v with
  | PStr s => from_option inr (inl ValueError) (Py.int s)
  | PNone => inl TypeError
  end.

(** The comprehension that builds [valid_scores]: for each record the
    filter is evaluated first ([and] short-circuits), then the pair. *)
Fixpoint valid_scores (benchmarks : list record) : res (list (Z * Z)) :=
  match benchmarks with
  | [] => ret []
  | b :: rest =>
      s <- getitem b "single_core" ;;
      single_ok <- str_isdigit s ;;
      keep <- (if single_ok return res bool
              then m <- getitem b "multi_core" ;; str_isdigit m
              else inr false) ;;
      here <- (if keep return res (list (Z * Z))
              then s <- getitem b "single_core" ;;
                   single <- py_int s ;;
                   m <- getitem b "multi_core" ;;
                   multi <- py_int m ;;
                   ret [(single, multi)]
              else inr []) ;;
      more <- valid_scores rest ;;
      ret (here ++ more)
  end.

(** A value of the statistics mapping: an integer, or a mean. The mean
    [round(total / count, 2)] is a float; it is kept as the exact pair it
    is computed from, the rounding is not modelled. *)
Inductive statval :=
| SInt (n : Z)
| SMean (total : Z) (count : Z).

Definition sum_list (xs : list Z) : Z := fold_left Z.add xs 0.

(** The mapping built from the numeric pairs. *)
Definition summarize (valid_scores : list (Z * Z)) : gmap string statval :=
  match valid_scores with
  | [] => ∅
  | (s0, m0) :: rest =>
      let single_scores := fst <$> valid_scores in
      let multi_scores := snd <$> valid_scores in
      let count := Z.of_nat (length valid_scores) in
      <["mean_single_core" := SMean (sum_list single_scores) count]>
      (<["mean_multi_core" := SMean (sum_list multi_scores) count]>
      (<["min_single_core" := SInt (Py.min_list s0 (fst <$> rest))]>
      (<["max_single_core" := SInt (Py.max_list s0 (fst <$> rest))]>
      (<["min_multi_core" := SInt (Py.min_list m0 (snd <$> rest))]>
      (<["max_multi_core" := SInt (Py.max_list m0 (snd <$> rest))]>
      (<["sample_count" := SInt count]> ∅))))))
  end.

Definition calculate_statistics (benchmarks : list record) : res (gmap string statval) :=
  valid <- valid_scores benchmarks ;;
  ret (summarize valid).

(** ** Writing and re-reading a collection *)

(** [open(path, 'w')] followed by writing [content] and closing. *)
Definition write_file (path : string) (content : document) : M unit :=
  fun w => (inr tt, {| requests := requests w; files := <[path := content]> (files w) |}).

(** *** JSON *)

Module json.

Definition encode (v : pyval) : jval :=
  match v with
  | PNone => JNull
  | PStr s => JString s
  end.

Definition decode (j : jval) : pyval :=
  match j with
  | JNull => PNone
  | JString s => PStr s
  end.

(** [json.dump] of a list of dicts. *)
Definition dump (benchmarks : list record) : json_doc :=
  (fun b => prod_map id encode <$> map_to_list b) <$> benchmarks.

(** [json.load]: an object becomes a dict, a repeated member name keeps
    its last value. *)
Definition load (doc : json_doc) : list record :=
  (fun members => dict_of_pairs (prod_map id decode <$> members)) <$> doc.

End json.

Definition create_json_output (benchmarks : list record) (output_file : string) : M unit :=
  write_file output_file (DJson (json.dump benchmarks)).

(** *** XML *)

Module ET.

(** An element in memory: [text] is [None] or a string. Only the leaves
    the scraper builds carry text. *)
Inductive Element :=
| Elem (tag : string) (text : pyval) (children : list Element).

Definition tag_of (e : Element) : string := let 'Elem t _ _ := e in t.
Definition text_of (e : Element) : pyval := let 'Elem _ x _ := e in x.
Definition children_of (e : Element) : list Element := let 'Elem _ _ c := e in c.

(** Text as written: [None] and the empty string both give an empty tag. *)
Definition text_to_disk (x : pyval) : string :=
  match x with
  | PStr s => s
  | PNone => EmptyString
  end.

(** Text as read: an empty tag has text [None]. *)
Definition text_from_disk (s : string) : pyval :=
  match s with
  | EmptyString => PNone
  | String _ _ => PStr s
  end.

(** [ET.tostring] *)
Fixpoint tostring (e : Element) : xml_doc :=
  match e with
  | Elem t x children => XmlElem t (text_to_disk x) (tostring <$> children)
  end.

(** [ET.parse] *)
Fixpoint parse (d : xml_doc) : Element :=
  match d with
  | XmlElem t s children => Elem t (text_from_disk s) (parse <$> children)
  end.

(** [e.find(tag)]: the first child with that tag. *)
Definition find (e : Element) (t : string) : option Element :=
  head (filter (fun c => tag_of c = t) (children_of e)).

(** [e.findall(tag)]: the children with that tag. *)
Definition findall (e : Element) (t : string) : list Element :=
  filter (fun c => tag_of c = t) (children_of e).

End ET.

(** The [<benchmark>] element of one record. *)
Definition benchmark_elem (bench : record) : res ET.Element :=
  system <- getitem bench "system" ;;
  model <- getitem bench "model" ;;
  single_core <- getitem bench "single_core" ;;
  multi_core <- getitem bench "multi_core" ;;
  url <- match bench !! "url" with
        | Some u => inr [ET.Elem "url" u []]
        | None => inr []
        end ;;
  ret (ET.Elem "benchmark" PNone
          ([ET.Elem "system" system [];
            ET.Elem "model" model [];
            ET.Elem "single_core_score" single_core [];
            ET.Elem "multi_core_score" multi_core []] ++ url)).

Definition create_xml_output (benchmarks : list record) (output_file : string) : M unit :=
  elems <- lift (for_each_res benchmark_elem benchmarks) ;;
  let root := ET.Elem "benchmarks" PNone elems in
  write_file output_file (DXml (ET.tostring root)).

(** *** CSV *)

Module csv.

(** How the writer renders a cell: [None] is written as the empty string. *)
Definition cell (v : pyval) : string :=
  match v with
  | PNone => EmptyString
  | PStr s => s
  end.

(** [DictWriter._dict_to_list]: a key outside [fieldnames] raises
    [ValueError]; a missing field is written as the empty string. *)
Definition dict_to_list (fieldnames : list string) (rowdict : record) : res (list string) :=
  if decide (dom rowdict ⊆ list_to_set fieldnames)
  then ret ((fun k => from_option cell EmptyString (rowdict !! k)) <$> fieldnames)
  else inl ValueError.

(** [DictWriter.writerows]: rows are written one by one; the rows before a
    failing one are already written when the exception is raised. *)
Fixpoint writerows (fieldnames : list string) (rowdicts : list record)
  : list (list string) * res unit :=
  match rowdicts with
  | [] => ([], inr tt)
  | d :: rest =>
      match dict_to_list fieldnames d with
      | inl e => ([], inl e)
      | inr row =>
          let '(rows, outcome) := writerows fieldnames rest in
          (row :: rows, outcome)
      end
  end.

(** One row of [DictReader]: the header's names paired with the cells; a
    name without a cell gets [None]. (Cells beyond the header are stored
    under the key [None], which is not a field name, and are left out.) *)
Fixpoint row_pairs (fieldnames : list string) (row : list string) : list (string * pyval) :=
  match fieldnames, row with
  | [], _ => []
  | k :: ks, [] => (k, PNone) :: row_pairs ks []
  | k :: ks, c :: cs => (k, PStr c) :: row_pairs ks cs
  end.

(** [list(csv.DictReader(f))]: the first row is the header, empty rows are
    skipped. *)
Definition DictReader (doc : csv_doc) : list record :=
  match doc with
  | [] => []
  | fieldnames :: rows =>
      (fun row => dict_of_pairs (row_pairs fieldnames row))
        <$> filter (fun row => row ≠ []) rows
  end.

End csv.

Definition csv_fieldnames (benchmarks : list record) : list string :=
  ["system"; "model"; "single_core"; "multi_core"] ++
  match benchmarks with
  | b :: _ => if decide (is_Some (b !! "url")) then ["url"] else []
  | [] => []
  end.

Definition create_csv_output (benchmarks : list record) (output_file : string) : M unit :=
  let fieldnames := csv_fieldnames benchmarks in
  let '(rows, outcome) := csv.writerows fieldnames benchmarks in
  _ <- write_file output_file (DCsv (fieldnames :: rows)) ;;
  lift outcome.

(** *** Reading a file back *)

(** One [<benchmark>] element as a record, with the reader's defaults. *)
Definition record_of_item (item : ET.Element) : record :=
  let field t default :=
    match ET.find item t with
    | Some e => ET.text_of e
    | None => default
    end in
  <["system" := field "system" (PStr "Unknown")]>
  (<["model" := field "model" (PStr "Unknown")]>
  (<["single_core" := field "single_core_score" (PStr "N/A")]>
  (<["multi_core" := field "multi_core_score" (PStr "N/A")]>
  (<["url" := field "url" PNone]> ∅)))).

(** [parse_input_file]: [None] when the file is missing, its extension is
    not supported, or reading raises. The file's content is a typed
    document; decoding a document under the wrong extension is rendered as
    the decoder raising. *)
Definition parse_input_file (file_path : string) : M (option (list record)) :=
  fun w =>
    match files w !! file_path with
    | None => (inr None, w)
    | Some content =>
        try_except
          (if Py.endswith file_path ".json" then
             match content with
             | DJson j => ret (Some (json.load j))
             | _ => raise (LibraryError "JSONDecodeError")
             end
           else if Py.endswith file_path ".xml" then
             match content with
             | DXml x =>
                 let root := ET.parse x in
                 ret (Some (record_of_item <$> ET.findall root "benchmark"))
             | _ => raise (LibraryError "ParseError")
             end
           else if Py.endswith file_path ".csv" then
             match content with
             | DCsv c => ret (Some (csv.DictReader c))
             | _ => raise (LibraryError "csv.Error")
             end
           else ret None)
          (fun _ => ret None) w
    end.


(** ** Derived views of the scraper, and the specification's wording *)

(** The world after one more request. *)
Definition logged (w : world) (url : string) : world :=
  {| requests := requests w ++ [url]; files := files w |}.

(** The record a container contributes, if any. *)
Definition extracted (result : bs4.located) : option record :=
  match extract_record result with
  | inr r => Some r
  | inl _ => None
  end.

(** The listing containers of a page. *)
Definition containers (soup : bs4.located) : list bs4.located :=
  bs4.select sel_list_col soup.

(** The score spans of a container. *)
Definition score_spans (result : bs4.located) : list bs4.located :=
  bs4.select sel_score result.

(** The text of the [i]-th score span, or the sentinel. *)
Definition score_text (result : bs4.located) (i : nat) : string :=
  match score_spans result !! i with
  | Some s => Py.strip (bs4.text s)
  | None => "N/A"
  end.

(** A status in the 2xx range. *)
Definition is_2xx (status : Z) : bool := (200 <=? status) && (status <? 300).


(** The value of a string of decimal digits. *)
Definition decimal_value (s : string) : Z :=
  fold_left (fun acc c => 10 * acc + Py.digit_value c) (list_ascii_of_string s) 0.



(** A non-empty string of decimal digits. *)
Definition is_decimal_text (s : string) : bool :=
  match s with
  | EmptyString => false
  | String _ _ => Py.all_chars Py.isdecimal_char s
  end.




(** Number of pages to fetch in the words of the specification:
    [min(discovered_total, cap)], no cap meaning all pages, a cap below 1
    counting as 1. *)
Definition pages_to_fetch_spec (total : Z) (cap : option Z) : Z :=
  match cap with
  | None => total
  | Some c => Z.min total (Z.max 1 c)
  end.

(** The numeric pair of a record in the words of the specification: both
    scores are strings of decimal digits. *)
Definition numeric_pair (r : record) : option (Z * Z) :=
  match r !! "single_core", r !! "multi_core" with
  | Some (PStr s), Some (PStr m) =>
      if is_decimal_text s && is_decimal_text m
      then Some (decimal_value s, decimal_value m)
      else None
  | _, _ => None
  end.

(** Both scores are strings, and a score that passes [isdigit] is made of
    decimal digits (no superscript digit). *)
Definition decimal_scores (r : record) : Prop :=
  exists s m,
    r !! "single_core" = Some (PStr s) /\ r !! "multi_core" = Some (PStr m) /\
    (Py.isdigit s = true -> is_decimal_text s = true) /\
    (Py.isdigit m = true -> is_decimal_text m = true).

(** A record carries a url when its dict has the [url] key. *)
Definition carries_url (r : record) : Prop := is_Some (r !! "url").

(** A record carries a url in the narrower sense: the key is there and
    holds a string. *)
Definition carries_url_text (r : record) : Prop := exists s, r !! "url" = Some (PStr s).


(** The five fields of a record. *)
Definition record_keys : gset string :=
  {[ "system"; "model"; "single_core"; "multi_core"; "url" ]}.

(** A record in the sense of the data model: the four text fields are
    strings, [url] is a string, [None] or missing, and there is no other
    key. *)
Definition is_record (r : record) : Prop :=
  (exists s, r !! "system" = Some (PStr s)) /\
  (exists s, r !! "model" = Some (PStr s)) /\
  (exists s, r !! "single_core" = Some (PStr s)) /\
  (exists s, r !! "multi_core" = Some (PStr s)) /\
  dom r ⊆ record_keys.

(** ** Sample inputs *)

Module Sample.

Definition txt (s : string) : bs4.node := bs4.NavigableString s.

Definition link_cell (href label : string) : bs4.node :=
  bs4.Tag "div" ["col-12"; "col-lg-4"] ∅
    [bs4.Tag "a" [] {[ "href" := href ]} [txt label]].

Definition model_span (m : string) : bs4.node :=
  bs4.Tag "span" ["list-col-model"] ∅ [txt m].

Definition score_span (s : string) : bs4.node :=
  bs4.Tag "span" ["list-col-text-score"] ∅ [txt s].

Definition container (contents : list bs4.node) : bs4.node :=
  bs4.Tag "div" ["list-col"] ∅ contents.

(** A listing container with everything in place. *)
Definition well_formed : bs4.node :=
  container [link_cell "/v6/cpu/1" " Galaxy A56 "; model_span "Exynos  1580";
             score_span "1364"; score_span "3893"].

(** A listing container without its model span: extraction raises. *)
Definition malformed : bs4.node :=
  container [link_cell "/v6/cpu/2" "Pixel"; score_span "1000"].

(** A listing container without link and scores. *)
Definition bare : bs4.node := container [model_span "Exynos"].


Definition page_link (label : string) : bs4.node :=
  bs4.Tag "li" ["page-item"] ∅
    [bs4.Tag "a" ["page-link"] {[ "href" := "#" ]} [txt label]].

Definition pagination (labels : list string) : bs4.node :=
  bs4.Tag "ul" ["pagination"] ∅ (page_link <$> labels).

Definition mixed_page : bs4.located := bs4.soup_of [well_formed; malformed].
Definition bare_page : bs4.located := bs4.soup_of [bare].
Definition three_pages : bs4.located :=
  bs4.soup_of [well_formed; pagination ["1"; "2"; "3"; "Next"]].

Definition well_formed_record : record :=
  <["system" := PStr "Galaxy A56"]>
  (<["model" := PStr "Exynos  1580"]>
  (<["single_core" := PStr "1364"]>
  (<["multi_core" := PStr "3893"]>
  (<["url" := PStr "https://browser.geekbench.com/v6/cpu/1"]> ∅)))).

(** A network that answers every request with the given status and body. *)
Definition answer (status : Z) (body : string) : requests.network :=
  fun _ _ => inr {| requests.status_code := status; requests.text := body |}.

(** A network that is down. *)
Definition down : requests.network :=
  fun _ _ => inl (LibraryError "ConnectionError").

(** A parser that yields the given document. *)
Definition parsed (soup : bs4.located) : bs4.parser := fun _ => inr soup.

Definition in_order : nat -> nat := fun i => i.

Definition start : world := {| requests := []; files := ∅ |}.

(** Collections. The superscript two is U+00B2. *)
Definition na_record : record :=
  <["system" := PStr "Unknown"]>
  (<["model" := PStr "Exynos"]>
  (<["single_core" := PStr "N/A"]>
  (<["multi_core" := PStr "N/A"]>
  (<["url" := PNone]> ∅)))).


Definition no_url_record : record :=
  <["system" := PStr "Pixel"]>
  (<["model" := PStr "Tensor"]>
  (<["single_core" := PStr "1000"]>
  (<["multi_core" := PStr "2000"]> ∅))).


Definition superscript_record : record :=
  <["system" := PStr "Pixel"]>
  (<["model" := PStr "Tensor"]>
  (<["single_core" := PStr (String (ascii_of_N 178) EmptyString)]>
  (<["multi_core" := PStr "2000"]>
  (<["url" := PNone]> ∅)))).

End Sample.

(** The specification's reading of a transport failure: every status
    outside 2xx empties the page. *)
Definition non_2xx_gives_empty : Prop :=
  forall net html_parser url page_num w r,
    net (requests w) url = inr r ->
    is_2xx (requests.status_code r) = false ->
    (parse_page net html_parser url page_num w).1 = inr [].

(** The specification's rule for the CSV header, for a given reading of
    "carries a url": the column is there exactly when some record carries
    one. *)
Definition url_column_iff_carried (carries : record -> Prop) : Prop :=
  forall benchmarks : list record,
    "url" ∈ csv_fieldnames benchmarks <-> exists r, r ∈ benchmarks /\ carries r.

(** A record has the four fields the XML writer reads. *)
Definition has_text_fields (r : record) : Prop :=
  is_Some (r !! "system") /\ is_Some (r !! "model") /\
  is_Some (r !! "single_core") /\ is_Some (r !! "multi_core").

(** What a value becomes when written to XML and read back: the empty
    string comes back as [None]. *)
Definition blank_to_none (v : pyval) : pyval :=
  match v with
  | PStr EmptyString => PNone
  | _ => v
  end.

(** A record after a trip through XML: five keys, blank text as [None], a
    missing [url] as [None], the reader's defaults for a missing field. *)
Definition xml_reread (r : record) : record :=
  <["system" := from_option blank_to_none (PStr "Unknown") (r !! "system")]>
  (<["model" := from_option blank_to_none (PStr "Unknown") (r !! "model")]>
  (<["single_core" := from_option blank_to_none (PStr "N/A") (r !! "single_core")]>
  (<["multi_core" := from_option blank_to_none (PStr "N/A") (r !! "multi_core")]>
  (<["url" := from_option blank_to_none PNone (r !! "url")]> ∅)))).




(** The specification's round trips, on the files the program writes. *)
Definition json_round_trip : Prop :=
  forall (benchmarks : list record) w,
    Forall is_record benchmarks ->
    (parse_input_file "results.json"
       (create_json_output benchmarks "results.json" w).2).1
    = inr (Some benchmarks).





(** The number of page requests a run makes after discovery. *)
Definition pages_fetched (w1 w2 : world) : nat :=
  (length (requests w2) - length (requests w1))%nat.

(** The specification's page count: [min(total, cap)] pages are fetched,
    whatever the cap. *)
Definition fetches_min_of_total_and_cap : Prop :=
  forall net html_parser finish query cap threads w total w1,
    discover net html_parser (search_url_of query) w = (inr total, w1) ->
    1 <= threads -> 1 <= total ->
    pages_fetched w1 (parse_geekbench net html_parser finish query cap threads w).2
    = Z.to_nat (pages_to_fetch_spec total cap).

(** ** File names *)

(** The characters the pattern [[^a-zA-Z0-9_-]] leaves alone. *)
Definition is_filename_char (c : ascii) : bool :=
  let n := Py.code c in
  (((97 <=? n) && (n <=? 122)) || ((65 <=? n) && (n <=? 90))
   || ((48 <=? n) && (n <=? 57)) || (n =? 95) || (n =? 45))%N.

(** [re.sub(r'[^a-zA-Z0-9_-]', '_', s)]: every other character becomes an
    underscore. *)
Fixpoint safe_filename_component (s : string) : string :=
  match s with
  | EmptyString => EmptyString
  | String c r =>
      String (if is_filename_char c then c else "_"%char) (safe_filename_component r)
  end.

(** ** The statistics file and the command line *)

(** A statistics file holds a mapping to numbers, which is not a record
    list: these files are kept in a store of their own, next to the world. *)
Record system := System {
  world_of : world;
  stats_files : gmap string (gmap string statval)
}.

(** How a run of the program can stop early: an exception nobody catches,
    or [sys.exit(code)]. *)
Inductive stop :=
| Uncaught (e : exn)
| SystemExit (code : Z).

(** The monad of [main]. *)
Definition P (A : Type) : Type := system -> (stop + A) * system.

#[global] Instance P_monad : Monad P := {|
  ret := fun A a s => (inr a, s);
  bind := fun A B m k s =>
    match m s with
    | (inl e, s') => (inl e, s')
    | (inr a, s') => k a s'
    end
|}.

(** A function of the program called from [main]: its exception, if any,
    is not caught. *)
Definition run {A} (m : M A) : P A :=
  fun s =>
    match m (world_of s) with
    | (inl e, w) => (inl (Uncaught e), {| world_of := w; stats_files := stats_files s |})
    | (inr a, w) => (inr a, {| world_of := w; stats_files := stats_files s |})
    end.

(** [sys.exit(code)] *)
Definition sys_exit {A} (code : Z) : P A := fun s => (inl (SystemExit code), s).

(** A pure computation called from [main]. *)
Definition call {A} (r : res A) : P A :=
  fun s =>
    match r with
    | inl e => (inl (Uncaught e), s)
    | inr a => (inr a, s)
    end.

(** Writing a statistics file. *)
Definition write_stats (path : string) (stats : gmap string statval) : P unit :=
  fun s => (inr tt, {| world_of := world_of s;
                       stats_files := <[path := stats]> (stats_files s) |}).

(** [create_stats_output]: the statistics are computed first, then the
    file is written. *)
Definition create_stats_output (benchmarks : list record) (output_file : string) : P unit :=
  stats <- call (calculate_statistics benchmarks) ;;
  write_stats output_file stats.

Module argparse.

(** What [parser.parse_args()] returns. *)
Record Namespace := {
  query : option string;
  threads : Z;
  pages : option Z;
  file : option string;
  output : option string;
  json : bool;
  stats : bool;
  csv : bool;
  xml : bool;
  all : bool
}.

End argparse.

(** Truth value of an optional string: [None] and the empty string are
    false. *)
Definition truthy (o : option string) : bool :=
  match o with
  | Some (String _ _) => true
  | _ => false
  end.

(** [o or default] *)
Definition str_or (o : option string) (default : string) : string :=
  match o with
  | Some (String c r) => String c r
  | _ => default
  end.

Section Main.

Variable net : requests.network.
Variable html_parser : bs4.parser.
Variable finish : nat -> nat.

(** [main], after the arguments are parsed. [timestamp] is the formatted
    current time. [parser.error] exits with status 2. *)
Definition main (args : argparse.Namespace) (timestamp : string) : P unit :=
  if negb (truthy (argparse.query args)) && negb (truthy (argparse.file args))
  then sys_exit 2
  else
    let threads := if argparse.threads args <? 1 then 1 else argparse.threads args in
    results <-
      (if truthy (argparse.file args)
       then
         results <- run (parse_input_file (default EmptyString (argparse.file args))) ;;
         match results with
         | None => sys_exit 1
         | Some results => ret results
         end
       else
         run (parse_geekbench net html_parser finish
                (default EmptyString (argparse.query args))
                (argparse.pages args) threads)) ;;
    match results with
    | [] => sys_exit 1
    | _ :: _ =>
        let base_name :=
          if truthy (argparse.file args)
          then str_or (argparse.output args) ("results_" +:+ timestamp +:+ "_parsed")
          else
            let sanitized_query :=
              safe_filename_component (default EmptyString (argparse.query args)) in
            str_or (argparse.output args)
                   ("results_" +:+ timestamp +:+ "_" +:+ sanitized_query) in
        let output_xml := argparse.xml args || argparse.all args in
        let output_json := argparse.json args || argparse.all args in
        let output_csv := argparse.csv args || argparse.all args in
        let output_stats := argparse.stats args || argparse.all args in
        let output_xml :=
          if negb (output_xml || output_json || output_csv || output_stats)
          then true else output_xml in
        _ <- (if output_xml
              then run (create_xml_output results (base_name +:+ ".xml"))
              else ret tt) ;;
        _ <- (if output_json
              then run (create_json_output results (base_name +:+ ".json"))
              else ret tt) ;;
        _ <- (if output_csv
              then run (create_csv_output results (base_name +:+ ".csv"))
              else ret tt) ;;
        if output_stats
        then
          let stats_file := base_name +:+ "_stats.json" in
          _ <- create_stats_output results stats_file ;;
          stats <- call (calculate_statistics results) ;;
          ret tt
        else ret tt
    end.

End Main.

(** ** Views used for the rest of the program *)

(** The records of the page at [url], requested in world [w]. *)
Definition page_records (net : requests.network) (html_parser : bs4.parser)
           (url : string) (w : world) : list record :=
  match net (requests w) url with
  | inl _ => []
  | inr response =>
      match requests.raise_for_status response with
      | inl _ => []
      | inr _ =>
          match html_parser (requests.text response) with
          | inl _ => []
          | inr soup => extract_page soup
          end
      end
  end.

(** The records of the pages at [urls], requested one after the other. *)
Fixpoint pages_records (net : requests.network) (html_parser : bs4.parser)
         (urls : list string) (w : world) : list (list record) :=
  match urls with
  | [] => []
  | url :: rest =>
      page_records net html_parser url w
        :: pages_records net html_parser rest (logged w url)
  end.

(** A string that [strip] leaves unchanged. *)
Definition stripped (s : string) : Prop := Py.strip s = s.


(** Two records with the same scores. *)
Definition same_scores (a b : record) : Prop :=
  a !! "single_core" = b !! "single_core" /\ a !! "multi_core" = b !! "multi_core".

(** The world in which the files are [fs]. *)
Definition with_files (w : world) (fs : gmap string document) : world :=
  {| requests := requests w; files := fs |}.

(** ** Views of the command line *)

(** The output phase of [main]: the files written for [results] under
    [base_name], given the four selections. *)
Definition write_outputs (results : list record) (base_name : string)
           (output_xml output_json output_csv output_stats : bool) : P unit :=
  _ <- (if output_xml
        then run (create_xml_output results (base_name +:+ ".xml"))
        else ret tt) ;;
  _ <- (if output_json
        then run (create_json_output results (base_name +:+ ".json"))
        else ret tt) ;;
  _ <- (if output_csv
        then run (create_csv_output results (base_name +:+ ".csv"))
        else ret tt) ;;
  if output_stats
  then
    _ <- create_stats_output results (base_name +:+ "_stats.json") ;;
    stats <- call (calculate_statistics results) ;;
    ret tt
  else ret tt.

(** The base name of the output files. *)
Definition base_name_of (args : argparse.Namespace) (timestamp : string) : string :=
  if truthy (argparse.file args)
  then str_or (argparse.output args) ("results_" +:+ timestamp +:+ "_parsed")
  else str_or (argparse.output args)
         ("results_" +:+ timestamp +:+ "_"
            +:+ safe_filename_component (default EmptyString (argparse.query args))).

(** Whether XML is written: selected, or nothing is. *)
Definition xml_selected (args : argparse.Namespace) : bool :=
  argparse.xml args || argparse.all args
  || negb (argparse.xml args || argparse.json args || argparse.csv args
           || argparse.stats args || argparse.all args).

(** The system in which the world is [w]. *)
Definition with_world (s : system) (w : world) : system :=
  {| world_of := w; stats_files := stats_files s |}.

(** The files after [path] is written with [content], if it is selected. *)
Definition written (selected : bool) (path : string) (content : document)
           (fs : gmap string document) : gmap string document :=
  if selected then <[path := content]> fs else fs.

(** The documents the XML and CSV writers put in a file. *)
Definition xml_document (elems : list ET.Element) : document :=
  DXml (ET.tostring (ET.Elem "benchmarks" PNone elems)).

Definition csv_document (benchmarks : list record) : document :=
  DCsv (csv_fieldnames benchmarks
          :: (csv.writerows (csv_fieldnames benchmarks) benchmarks).1).

(** The arguments of a run that names a query and nothing else: the
    parser's defaults. *)
Definition query_args (q : string) : argparse.Namespace :=
  {| argparse.query := Some q; argparse.threads := 1; argparse.pages := None;
     argparse.file := None; argparse.output := None; argparse.json := false;
     argparse.stats := false; argparse.csv := false; argparse.xml := false;
     argparse.all := false |}.

(** The arguments of a run that names an input file, an output base name
    and the JSON format. *)
Definition file_to_json_args (f out : string) : argparse.Namespace :=
  {| argparse.query := None; argparse.threads := 1; argparse.pages := None;
     argparse.file := Some f; argparse.output := Some out; argparse.json := true;
     argparse.stats := false; argparse.csv := false; argparse.xml := false;
     argparse.all := false |}.

(** A system with no file and no request made. *)
Definition fresh_system : system := {| world_of := Sample.start; stats_files := ∅ |}.

(** * Facts *)

(** ** Running the monad *)

Lemma bind_res_inr {A B} (a : A) (k : A -> res B) : (x <- inr a ;; k x) = k a.
Proof. reflexivity. Qed.

Lemma bind_res_inl {A B} (e : exn) (k : A -> res B) : (x <- inl e ;; k x) = inl e.
Proof. reflexivity. Qed.

Lemma bind_M_run {A B} (m : M A) (k : A -> M B) w :
  (x <- m ;; k x) w =
  match m w with
  | (inl e, w') => (inl e, w')
  | (inr a, w') => k a w'
  end.
Proof. reflexivity. Qed.

Lemma get_run net url w :
  requests.get net url w = (net (requests w) url, logged w url).
Proof. reflexivity. Qed.

(** What a page contributes, read off the collaborators' answers. *)
Lemma parse_page_run net html_parser url page_num w :
  parse_page net html_parser url page_num w =
  (inr match net (requests w) url with
       | inl _ => []
       | inr response =>
           match requests.raise_for_status response with
           | inl _ => []
           | inr _ =>
               match html_parser (requests.text response) with
               | inl _ => []
               | inr soup => extract_page soup
               end
           end
       end,
   logged w url).
Proof.
  unfold parse_page, try_except. rewrite bind_M_run, get_run.
  destruct (net (requests w) url) as [e|response]; [reflexivity|].
  rewrite bind_M_run. unfold lift at 1.
  destruct (requests.raise_for_status response) as [e|[]]; [reflexivity|].
  rewrite bind_M_run. unfold lift at 1.
  destruct (html_parser (requests.text response)) as [e|soup]; reflexivity.
Qed.

Lemma raise_for_status_error r :
  400 <= requests.status_code r < 600 ->
  requests.raise_for_status r = inl (HTTPError (requests.status_code r)).
Proof.
  intros [H1 H2]. unfold requests.raise_for_status.
  apply Z.leb_le in H1. apply Z.ltb_lt in H2. by rewrite H1, H2.
Qed.

Lemma raise_for_status_ok r :
  ¬ (400 <= requests.status_code r < 600) ->
  requests.raise_for_status r = inr tt.
Proof.
  intros H. unfold requests.raise_for_status.
  destruct (400 <=? requests.status_code r) eqn:H1;
    destruct (requests.status_code r <? 600) eqn:H2; try reflexivity.
  apply Z.leb_le in H1. apply Z.ltb_lt in H2. lia.
Qed.

(** The container loop keeps, in order, what the containers contribute. *)
Lemma extract_loop (results : list bs4.located) (acc : list record) :
  fold_left
    (fun page_results result =>
       match extract_record result with
       | inr r => page_results ++ [r]
       | inl _ => page_results
       end) results acc
  = acc ++ omap extracted results.
Proof.
  revert acc. induction results as [|c cs IH]; intros acc; simpl.
  - by rewrite app_nil_r.
  - rewrite IH. unfold extracted at 2.
    destruct (extract_record c); [reflexivity|]. by rewrite <- app_assoc.
Qed.

Lemma extract_page_omap soup : extract_page soup = omap extracted (containers soup).
Proof. unfold extract_page. by rewrite extract_loop. Qed.

(** ** The page fetcher *)

(** C1, amended: [parse_page] never raises; it returns the empty list when
    the request raises, when the status is 4xx or 5xx, and when the parser
    raises; a response with any other status is parsed. *)
Theorem parse_page_never_raises net html_parser url page_num w :
  exists rs,
    (parse_page net html_parser url page_num w).1 = inr rs /\
    (forall e, net (requests w) url = inl e -> rs = []) /\
    (forall r, net (requests w) url = inr r ->
               400 <= requests.status_code r < 600 -> rs = []) /\
    (forall r e, net (requests w) url = inr r ->
                 html_parser (requests.text r) = inl e -> rs = []) /\
    (forall r soup, net (requests w) url = inr r ->
                    ¬ (400 <= requests.status_code r < 600) ->
                    html_parser (requests.text r) = inr soup ->
                    rs = extract_page soup).
Proof.
  rewrite parse_page_run. eexists. split; [reflexivity|].
  repeat split.
  - intros e ->. reflexivity.
  - intros r -> Hs. by rewrite raise_for_status_error.
  - intros r e -> Hp. rewrite Hp. by destruct (requests.raise_for_status r).
  - intros r soup -> Hs Hp. by rewrite raise_for_status_ok, Hp.
Qed.

Lemma parse_page_never_raises_witness :
  (parse_page Sample.down (Sample.parsed Sample.mixed_page) "u" 1 Sample.start).1 = inr [].
Proof.
  destruct (parse_page_never_raises Sample.down (Sample.parsed Sample.mixed_page)
              "u" 1 Sample.start) as (rs & Hrun & Hdown & _).
  rewrite Hrun. f_equal. exact (Hdown _ eq_refl).
Defined.

(** C1 as stated fails: a response with status 300 is not a failure for
    [raise_for_status], and the records of its body are returned. *)
Lemma non_2xx_status_is_parsed : ¬ non_2xx_gives_empty.
Proof.
  intros H.
  specialize (H (Sample.answer 300 "<html>") (Sample.parsed Sample.mixed_page)
                "u" 1%nat Sample.start _ eq_refl eq_refl).
  vm_compute in H. discriminate H.
Qed.

(** C2: the containers of a page are extracted independently; a container
    whose extraction raises contributes nothing and the others are kept in
    order. A page with one well-formed and one malformed container yields
    exactly the well-formed container's record. *)
Theorem parse_page_fault_isolated net html_parser url page_num w r soup :
  net (requests w) url = inr r ->
  requests.raise_for_status r = inr tt ->
  html_parser (requests.text r) = inr soup ->
  (parse_page net html_parser url page_num w).1 = inr (omap extracted (containers soup)) /\
  (forall a b rec e,
      containers soup = [a; b] ->
      extract_record a = inr rec -> extract_record b = inl e ->
      (parse_page net html_parser url page_num w).1 = inr [rec]) /\
  (forall a b rec e,
      containers soup = [a; b] ->
      extract_record a = inl e -> extract_record b = inr rec ->
      (parse_page net html_parser url page_num w).1 = inr [rec]).
Proof.
  intros Hnet Hstatus Hparse.
  assert (Hrun : (parse_page net html_parser url page_num w).1
                 = inr (omap extracted (containers soup))).
  { rewrite parse_page_run, Hnet, Hstatus, Hparse. simpl.
    by rewrite extract_page_omap. }
  split; [exact Hrun|]. split.
  - intros a b rec e Hc Ha Hb. rewrite Hrun, Hc. simpl.
    unfold extracted. by rewrite Ha, Hb.
  - intros a b rec e Hc Ha Hb. rewrite Hrun, Hc. simpl.
    unfold extracted. by rewrite Ha, Hb.
Qed.

Lemma parse_page_fault_isolated_witness :
  (parse_page (Sample.answer 200 "<html>") (Sample.parsed Sample.mixed_page)
              "u" 1 Sample.start).1 = inr [Sample.well_formed_record].
Proof.
  refine (proj1 (proj2 (parse_page_fault_isolated
            (Sample.answer 200 "<html>") (Sample.parsed Sample.mixed_page)
            "u" 1 Sample.start _ Sample.mixed_page eq_refl eq_refl eq_refl))
          _ _ _ AttributeError _ _ _).
  - vm_compute. reflexivity.
  - vm_compute. reflexivity.
  - vm_compute. reflexivity.
Defined.

(** ** The coordinator *)

Lemma try_except_run {A} (body : M A) (handler : exn -> M A) w :
  try_except body handler w =
  match body w with
  | (inl e, w') => handler e w'
  | (inr a, w') => (inr a, w')
  end.
Proof. reflexivity. Qed.

(** A successful discovery made exactly one request, for the search URL. *)
Lemma discover_world net html_parser search_url w total w1 :
  discover net html_parser search_url w = (inr total, w1) ->
  w1 = logged w search_url.
Proof.
  unfold discover. rewrite bind_M_run, get_run.
  destruct (net (requests w) search_url) as [e|r]; [discriminate|].
  rewrite bind_M_run. unfold lift at 1.
  destruct (requests.raise_for_status r) as [e|[]]; [discriminate|].
  rewrite bind_M_run. unfold lift at 1.
  destruct (html_parser (requests.text r)) as [e|soup]; [discriminate|].
  unfold lift. congruence.
Qed.

Lemma for_each_cons_run {A B} (body : A -> M B) x xs w :
  for_each body (x :: xs) w =
  match body x w with
  | (inl e, w') => (inl e, w')
  | (inr y, w') =>
      match for_each body xs w' with
      | (inl e, w'') => (inl e, w'')
      | (inr ys, w'') => (inr (y :: ys), w'')
      end
  end.
Proof.
  cbn [for_each]. rewrite bind_M_run.
  destruct (body x w) as [[e|y] w']; [reflexivity|].
  rewrite bind_M_run. by destruct (for_each body xs w') as [[e|ys] w''].
Qed.

Lemma submit_run net html_parser i url w :
  exists r, submit net html_parser (i, url) w = (inr (i, r), logged w url).
Proof.
  unfold submit. rewrite bind_M_run, parse_page_run. eexists. reflexivity.
Qed.

(** Submitting the pages: every URL is requested once, in order, and every
    page yields a result. *)
Lemma submit_all net html_parser (urls : list string) (first : nat) w :
  exists futures,
    for_each (submit net html_parser) (zip (seq first (length urls)) urls) w
    = (inr futures,
       {| requests := requests w ++ urls; files := files w |}) /\
    length futures = length urls.
Proof.
  revert first w. induction urls as [|url urls IH]; intros first w.
  - exists []. simpl. rewrite app_nil_r. by destruct w.
  - destruct (IH (S first) (logged w url)) as (futures & Hrun & Hlen).
    destruct (submit_run net html_parser first url w) as (r & Hr).
    exists ((first, r) :: futures). split; [|simpl; by rewrite Hlen].
    cbn [length seq zip zip_with]. rewrite for_each_cons_run, Hr, Hrun.
    cbn [logged requests files]. by rewrite <- app_assoc.
Qed.

Lemma range_length lo hi : length (range lo hi) = Z.to_nat (hi - lo).
Proof. unfold range. by rewrite length_fmap, length_seq. Qed.

Lemma page_urls_length search_url pages :
  length (page_urls search_url pages) = Z.to_nat (Z.max 1 pages).
Proof.
  unfold page_urls. cbn [length]. rewrite length_fmap, range_length. lia.
Qed.

(** After a successful discovery and with a pool of at least one worker,
    the run requests exactly the page URLs and returns. *)
Lemma fetch_all_run net html_parser finish search_url total max_pages threads w :
  1 <= threads ->
  exists rs,
    fetch_all net html_parser finish search_url total max_pages threads w
    = (inr rs,
       {| requests := requests w ++ page_urls search_url (pages_to_fetch total max_pages);
          files := files w |}).
Proof.
  intros Hthreads. unfold fetch_all.
  assert ((threads <=? 0) = false) as -> by lia.
  rewrite bind_M_run. cbn [ret M_monad].
  destruct (submit_all net html_parser
              (page_urls search_url (pages_to_fetch total max_pages)) 1 w)
    as (futures & Hrun & _).
  rewrite bind_M_run. unfold enumerate. rewrite Hrun.
  eexists. reflexivity.
Qed.

(** C3: when the discovery stage raises (first-page request, its status,
    the parser, or the pagination scan), [parse_geekbench] returns the empty
    list: no partial collection and no error value. *)
Theorem discovery_failure_gives_empty net html_parser finish query max_pages threads w e w1 :
  discover net html_parser (search_url_of query) w = (inl e, w1) ->
  parse_geekbench net html_parser finish query max_pages threads w = (inr [], w1).
Proof.
  intros Hd. unfold parse_geekbench. rewrite try_except_run, bind_M_run, Hd.
  reflexivity.
Qed.

Lemma discovery_failure_gives_empty_witness :
  parse_geekbench Sample.down (Sample.parsed Sample.three_pages) Sample.in_order
                  "sm-a566b" None 4 Sample.start
  = (inr [], logged Sample.start (search_url_of "sm-a566b")).
Proof.
  apply (discovery_failure_gives_empty Sample.down (Sample.parsed Sample.three_pages)
           Sample.in_order "sm-a566b" None 4 Sample.start
           (LibraryError "ConnectionError")).
  reflexivity.
Defined.

(** C4, amended: after a successful discovery and with a pool of at least
    one worker, the pages requested are the search URL followed by pages
    [2..n], where [n] is [min(total, cap)] for a cap other than 0 and
    [total] for no cap or a cap of 0; at least one page is always fetched,
    so a negative cap fetches one page. With three discovered pages and a
    cap of 2, pages 1 and 2 are fetched and page 3 is not. *)
Theorem pages_fetched_by_cap net html_parser finish query max_pages threads w total w1 :
  discover net html_parser (search_url_of query) w = (inr total, w1) ->
  1 <= threads ->
  let u := search_url_of query in
  let w2 := (parse_geekbench net html_parser finish query max_pages threads w).2 in
  requests w2 = requests w ++ [u] ++ page_urls u (pages_to_fetch total max_pages) /\
  pages_fetched w1 w2 = Z.to_nat (Z.max 1 (pages_to_fetch total max_pages)) /\
  (max_pages = None \/ max_pages = Some 0 -> pages_to_fetch total max_pages = total) /\
  (forall cap, max_pages = Some cap -> cap <> 0 ->
               pages_to_fetch total max_pages = Z.min total cap) /\
  (forall cap, max_pages = Some cap -> 1 <= cap -> 1 <= total ->
               pages_fetched w1 w2 = Z.to_nat (Z.min total cap)) /\
  (forall cap, max_pages = Some cap -> cap < 0 -> pages_fetched w1 w2 = 1%nat) /\
  (total = 3 -> max_pages = Some 2 ->
   requests w2 = requests w ++ [u; u; u +:+ "&page=2"]).
Proof.
  intros Hd Hthreads u w2.
  pose proof (discover_world _ _ _ _ _ _ Hd) as Hw1.
  destruct (fetch_all_run net html_parser finish u total max_pages threads w1 Hthreads)
    as (rs & Hrun).
  assert (Hreq : requests w2
                 = requests w ++ [u] ++ page_urls u (pages_to_fetch total max_pages)).
  { subst w2. unfold parse_geekbench. rewrite try_except_run, bind_M_run, Hd.
    subst u. rewrite Hrun. cbn [snd requests]. rewrite Hw1.
    cbn [logged requests]. by rewrite <- app_assoc. }
  assert (Hcount : pages_fetched w1 w2
                   = Z.to_nat (Z.max 1 (pages_to_fetch total max_pages))).
  { unfold pages_fetched. rewrite Hreq, Hw1. cbn [logged requests].
    rewrite !length_app, page_urls_length. cbn [length]. lia. }
  split; [exact Hreq|]. split; [exact Hcount|].
  split; [|split; [|split; [|split]]].
  - intros [-> | ->]; reflexivity.
  - intros cap -> Hcap. unfold pages_to_fetch.
    destruct (Z.eqb_spec cap 0); [contradiction|reflexivity].
  - intros cap -> Hcap Htotal. rewrite Hcount. unfold pages_to_fetch.
    destruct (Z.eqb_spec cap 0); lia.
  - intros cap -> Hcap. rewrite Hcount. unfold pages_to_fetch.
    destruct (Z.eqb_spec cap 0); lia.
  - intros -> ->. rewrite Hreq. reflexivity.
Qed.

Lemma pages_fetched_by_cap_witness :
  requests (parse_geekbench (Sample.answer 200 "<html>")
              (Sample.parsed Sample.three_pages) Sample.in_order
              "sm-a566b" (Some 2) 1 Sample.start).2
  = [search_url_of "sm-a566b"; search_url_of "sm-a566b";
     search_url_of "sm-a566b" +:+ "&page=2"].
Proof.
  refine (proj2 (proj2 (proj2 (proj2 (proj2 (proj2
            (pages_fetched_by_cap (Sample.answer 200 "<html>")
               (Sample.parsed Sample.three_pages) Sample.in_order
               "sm-a566b" (Some 2) 1 Sample.start 3
               (logged Sample.start (search_url_of "sm-a566b")) _ _))))))
          eq_refl eq_refl).
  - vm_compute. reflexivity.
  - lia.
Defined.

(** C4 as stated fails: with three discovered pages and a cap of 0 all
    three pages are fetched, not one. *)
Lemma cap_zero_fetches_all : ¬ fetches_min_of_total_and_cap.
Proof.
  intros H.
  specialize (H (Sample.answer 200 "<html>") (Sample.parsed Sample.three_pages)
                Sample.in_order "sm-a566b" (Some 0) 1 Sample.start 3
                (logged Sample.start (search_url_of "sm-a566b"))).
  assert (Hd : discover (Sample.answer 200 "<html>") (Sample.parsed Sample.three_pages)
                 (search_url_of "sm-a566b") Sample.start
               = (inr 3, logged Sample.start (search_url_of "sm-a566b")))
    by (vm_compute; reflexivity).
  specialize (H Hd ltac:(lia) ltac:(lia)).
  vm_compute in H. discriminate H.
Qed.

(** ** Text *)

Lemma all_chars_cons p c r :
  Py.all_chars p (String c r) = true <-> p c = true /\ Py.all_chars p r = true.
Proof. simpl. apply andb_true_iff. Qed.

Lemma all_chars_impl (p q : ascii -> bool) s :
  (forall c, p c = true -> q c = true) ->
  Py.all_chars p s = true -> Py.all_chars q s = true.
Proof.
  intros Hpq. induction s as [|c r IH]; [done|].
  rewrite !all_chars_cons. intros [Hc Hr]. auto.
Qed.








(** Character facts, checked on the 256 code points. *)
Ltac by_cases_on_char c :=
  destruct c as [[] [] [] [] [] [] [] []]; vm_compute; (reflexivity || discriminate || tauto).



Lemma decimal_is_digit c : Py.isdecimal_char c = true -> Py.isdigit_char c = true.
Proof. by_cases_on_char c. Qed.

Lemma decimal_not_sign c :
  Py.isdecimal_char c = true -> Ascii.eqb c "+" = false /\ Ascii.eqb c "-" = false.
Proof. by_cases_on_char c. Qed.

Lemma decimal_not_space c :
  Py.isdecimal_char c = true -> Py.int_space c = false.
Proof. by_cases_on_char c. Qed.


Lemma is_decimal_text_spec s :
  is_decimal_text s = true <-> s <> EmptyString /\ Py.all_chars Py.isdecimal_char s = true.
Proof. destruct s; simpl; [split; [discriminate|intros [[] _]; done]|]. split; [done|tauto]. Qed.


Lemma decimal_text_isdigit s : is_decimal_text s = true -> Py.isdigit s = true.
Proof.
  destruct s as [|c r]; [done|]. unfold Py.isdigit, is_decimal_text.
  apply all_chars_impl, decimal_is_digit.
Qed.

(** [int] on a string of decimal digits. *)
Lemma int_digits_decimal s acc :
  Py.all_chars Py.isdecimal_char s = true ->
  Py.int_digits acc s
  = Some (fold_left (fun a c => 10 * a + Py.digit_value c) (list_ascii_of_string s) acc).
Proof.
  revert acc. induction s as [|c r IH]; intros acc; [done|].
  intros [Hc Hr]%all_chars_cons. simpl. rewrite Hc. by apply IH.
Qed.

Lemma int_literal_decimal s :
  is_decimal_text s = true -> Py.int_literal s = Some (decimal_value s).
Proof.
  destruct s as [|c r]; [done|]. unfold is_decimal_text.
  intros [Hc Hr]%all_chars_cons. unfold Py.int_literal, decimal_value.
  rewrite Hc, (int_digits_decimal _ _ Hr). simpl. by rewrite Z.add_0_l.
Qed.




(** ** Pagination discovery *)










(** ** Statistics *)

Lemma rstrip_no_space sp s :
  Py.all_chars (fun c => negb (sp c)) s = true -> Py.rstrip_with sp s = s.
Proof.
  induction s as [|c r IH]; [done|]. intros [Hc Hr]%all_chars_cons. simpl.
  rewrite (IH Hr). apply negb_true_iff in Hc. rewrite Hc. by destruct r.
Qed.

Lemma lstrip_no_space sp s :
  Py.all_chars (fun c => negb (sp c)) s = true -> Py.lstrip_with sp s = s.
Proof.
  destruct s as [|c r]; [done|]. intros [Hc _]%all_chars_cons. simpl.
  apply negb_true_iff in Hc. by rewrite Hc.
Qed.

(** [int] on a string of decimal digits is its decimal value. *)
Lemma int_decimal s :
  is_decimal_text s = true -> Py.int s = Some (decimal_value s).
Proof.
  intros Hd. pose proof Hd as [Hne Hall]%is_decimal_text_spec. unfold Py.int.
  assert (Hns : Py.all_chars (fun c => negb (Py.int_space c)) s = true).
  { revert Hall. apply all_chars_impl. intros c Hc.
    by rewrite (decimal_not_space c Hc). }
  unfold Py.strip_with. rewrite (lstrip_no_space _ _ Hns), (rstrip_no_space _ _ Hns).
  destruct s as [|c r]; [done|].
  pose proof Hall as [Hc _]%all_chars_cons.
  destruct (decimal_not_sign c Hc) as [-> ->].
  by apply int_literal_decimal.
Qed.

(** On records whose digit scores are decimal, the comprehension keeps the
    numeric pairs and never raises. *)
Lemma valid_scores_decimal (benchmarks : list record) :
  Forall decimal_scores benchmarks ->
  valid_scores benchmarks = inr (omap numeric_pair benchmarks).
Proof.
  induction 1 as [|b rest (s & m & Hs & Hm & Hds & Hdm) _ IH]; [done|].
  change (omap numeric_pair (b :: rest))
    with (match numeric_pair b with
          | Some p => p :: omap numeric_pair rest
          | None => omap numeric_pair rest
          end).
  cbn [valid_scores]. unfold getitem, numeric_pair. rewrite Hs, Hm, IH.
  cbn [str_isdigit py_int ret res_monad bind].
  destruct (Py.isdigit s) eqn:Eds.
  - rewrite (Hds eq_refl).
    destruct (Py.isdigit m) eqn:Edm.
    + rewrite (Hdm eq_refl). cbn [andb].
      by rewrite (int_decimal s (Hds eq_refl)), (int_decimal m (Hdm eq_refl)).
    + assert (is_decimal_text m = false) as ->; [|done].
      destruct (is_decimal_text m) eqn:E; [|done].
      apply decimal_text_isdigit in E. congruence.
  - assert (is_decimal_text s = false) as ->; [|done].
    destruct (is_decimal_text s) eqn:E; [|done].
    apply decimal_text_isdigit in E. congruence.
Qed.

(** The specification's statement, where it holds: on records whose digit
    scores are decimal, the statistics cover exactly the records with two
    decimal scores, and the mapping is empty when there is none. *)
Lemma calculate_statistics_decimal (benchmarks : list record) :
  Forall decimal_scores benchmarks ->
  calculate_statistics benchmarks = inr (summarize (omap numeric_pair benchmarks)) /\
  (omap numeric_pair benchmarks = [] -> calculate_statistics benchmarks = inr ∅) /\
  (omap numeric_pair benchmarks <> [] ->
   exists stats, calculate_statistics benchmarks = inr stats /\
     stats !! "sample_count"
     = Some (SInt (Z.of_nat (length (omap numeric_pair benchmarks))))).
Proof.
  intros H. unfold calculate_statistics. rewrite (valid_scores_decimal _ H).
  rewrite bind_res_inr. split; [done|]. split.
  - by intros ->.
  - intros Hne. eexists. split; [reflexivity|].
    destruct (omap numeric_pair benchmarks) as [|[s0 m0] rest]; [done|].
    unfold summarize. by simplify_map_eq.
Qed.

(** C6, the defect: a score made of a superscript digit passes [isdigit],
    is not a decimal number, and makes [int] raise [ValueError]; the
    statistics of a collection holding such a record are not computed. *)
Theorem calculate_statistics_superscript :
  Sample.superscript_record !! "single_core"
    = Some (PStr (String (ascii_of_N 178) EmptyString)) /\
  Py.isdigit (String (ascii_of_N 178) EmptyString) = true /\
  is_decimal_text (String (ascii_of_N 178) EmptyString) = false /\
  calculate_statistics [Sample.superscript_record] = inl ValueError.
Proof. vm_compute. repeat split; reflexivity. Qed.

(** ** The records of a page *)

(** What a successful extraction puts into the record. *)
Lemma extract_record_fields (result : bs4.located) (r : record) :
  extract_record result = inr r ->
  dom r = record_keys /\
  r !! "single_core" = Some (PStr (score_text result 0)) /\
  r !! "multi_core" = Some (PStr (score_text result 1)) /\
  (exists s, r !! "system" = Some (PStr s)) /\
  (exists s, r !! "model" = Some (PStr s)) /\
  (bs4.select_one sel_result_link result = None ->
   r !! "url" = Some PNone /\ r !! "system" = Some (PStr "Unknown")) /\
  (forall a, bs4.select_one sel_result_link result = Some a ->
             exists href, bs4.attr a "href" = inr href /\
                          r !! "url" = Some (PStr (base_url +:+ href)) /\
                          r !! "system" = Some (PStr (Py.strip (bs4.text a)))).
Proof.
  unfold extract_record, score_text, score_spans.
  destruct (bs4.select_one sel_result_link result) as [a|].
  - destruct (bs4.attr a "href") as [e|href] eqn:Hhref; [discriminate|].
    rewrite !bind_res_inr. cbn [ret res_monad]. rewrite bind_res_inr.
    destruct (bs4.select_one sel_model result) as [m|]; [|discriminate].
    rewrite bind_res_inr. intros [= <-].
    split; [unfold record_keys; rewrite !dom_insert_L, dom_empty_L; set_solver|].
    split; [by simplify_map_eq|]. split; [by simplify_map_eq|].
    split; [eexists; by simplify_map_eq|]. split; [eexists; by simplify_map_eq|].
    split; [intros [=]|].
    intros a' [= <-]. exists href. split; [done|]. by simplify_map_eq.
  - cbn [ret res_monad]. rewrite bind_res_inr.
    destruct (bs4.select_one sel_model result) as [m|]; [|discriminate].
    rewrite bind_res_inr. intros [= <-].
    split; [unfold record_keys; rewrite !dom_insert_L, dom_empty_L; set_solver|].
    split; [by simplify_map_eq|]. split; [by simplify_map_eq|].
    split; [eexists; by simplify_map_eq|]. split; [eexists; by simplify_map_eq|].
    split; [intros _; by simplify_map_eq|].
    intros a' [=].
Qed.

(** Every record of a page is the record of one of its containers. *)
Lemma parse_page_records net html_parser url page_num w rs (r : record) :
  (parse_page net html_parser url page_num w).1 = inr rs ->
  r ∈ rs ->
  exists response soup result,
    net (requests w) url = inr response /\
    html_parser (requests.text response) = inr soup /\
    result ∈ containers soup /\
    extract_record result = inr r.
Proof.
  rewrite parse_page_run. cbn [fst]. intros [= <-] Hr.
  destruct (net (requests w) url) as [e|response] eqn:Hnet; [by inversion Hr|].
  destruct (requests.raise_for_status response); [by inversion Hr|].
  destruct (html_parser (requests.text response)) as [e|soup] eqn:Hparse;
    [by inversion Hr|].
  rewrite extract_page_omap in Hr.
  apply list_elem_of_omap in Hr as (result & Hin & Hex).
  exists response, soup, result. split; [done|]. split; [done|]. split; [done|].
  unfold extracted in Hex. destruct (extract_record result) as [|r']; by simplify_eq.
Qed.




(** C10: every record of a page has the five keys [system], [model],
    [single_core], [multi_core] and [url]; the [url] key is always there,
    and holds [None] when the container has no link element. *)
Theorem record_has_all_keys net html_parser url page_num w rs (r : record) :
  (parse_page net html_parser url page_num w).1 = inr rs ->
  r ∈ rs ->
  dom r = record_keys /\
  is_Some (r !! "system") /\ is_Some (r !! "model") /\
  is_Some (r !! "single_core") /\ is_Some (r !! "multi_core") /\
  is_Some (r !! "url") /\
  exists result,
    extract_record result = inr r /\
    (bs4.select_one sel_result_link result = None -> r !! "url" = Some PNone).
Proof.
  intros Hrun Hr.
  destruct (parse_page_records _ _ _ _ _ _ _ Hrun Hr)
    as (response & soup & result & _ & _ & _ & Hex).
  destruct (extract_record_fields _ _ Hex)
    as (Hdom & Hs & Hm & [sy Hsy] & [mo Hmo] & Hnone & Hsome).
  split; [exact Hdom|].
  assert (Hurl : is_Some (r !! "url")).
  { apply elem_of_dom. rewrite Hdom. unfold record_keys. set_solver. }
  repeat split; try (eexists; eassumption); try done.
  exists result. split; [done|]. intros Hn. by apply Hnone.
Qed.

Lemma record_has_all_keys_witness :
  dom Sample.na_record = record_keys /\ is_Some (Sample.na_record !! "url").
Proof.
  destruct (record_has_all_keys (Sample.answer 200 "<html>")
              (Sample.parsed Sample.bare_page) "u" 1 Sample.start
              [Sample.na_record] Sample.na_record)
    as (Hdom & _ & _ & _ & _ & Hurl & _).
  - vm_compute. reflexivity.
  - left.
  - split; assumption.
Defined.

(** ** The CSV header *)

(** Closed decidable facts, by evaluation. *)
Ltac holds_by_eval :=
  refine (proj1 (bool_decide_eq_true _) _); vm_compute; reflexivity.
Ltac fails_by_eval H :=
  let E := fresh in
  pose proof (proj2 (bool_decide_eq_true _) H) as E; vm_compute in E; discriminate E.

Lemma create_csv_output_file (benchmarks : list record) output_file w :
  exists rows,
    files (create_csv_output benchmarks output_file w).2 !! output_file
    = Some (DCsv (csv_fieldnames benchmarks :: rows)).
Proof.
  unfold create_csv_output.
  destruct (csv.writerows (csv_fieldnames benchmarks) benchmarks) as [rows outcome].
  exists rows. rewrite bind_M_run. unfold write_file, lift. cbn.
  destruct outcome; cbn; by rewrite lookup_insert_eq.
Qed.

(** C9, amended: the header written to the CSV file has the [url] column
    exactly when the collection is not empty and its first record has the
    [url] key (whatever it holds, [None] included); in every other case, in
    particular when no record has the key, the header is
    [system,model,single_core,multi_core]. *)
Theorem csv_url_column_from_first_record (benchmarks : list record) output_file w :
  (exists rows,
     files (create_csv_output benchmarks output_file w).2 !! output_file
     = Some (DCsv (csv_fieldnames benchmarks :: rows))) /\
  ("url" ∈ csv_fieldnames benchmarks <->
   exists b rest, benchmarks = b :: rest /\ carries_url b) /\
  ("url" ∉ csv_fieldnames benchmarks ->
   csv_fieldnames benchmarks = ["system"; "model"; "single_core"; "multi_core"]) /\
  ((forall r, r ∈ benchmarks -> ¬ carries_url r) ->
   csv_fieldnames benchmarks = ["system"; "model"; "single_core"; "multi_core"]).
Proof.
  split; [apply create_csv_output_file|].
  assert (Hiff : "url" ∈ csv_fieldnames benchmarks <->
                 exists b rest, benchmarks = b :: rest /\ carries_url b).
  { unfold csv_fieldnames, carries_url. destruct benchmarks as [|b rest].
    - split; [intros H; fails_by_eval H|intros (b & rest & [=] & _)].
    - destruct (decide (is_Some (b !! "url"))) as [Hb|Hb].
      + split; [intros _; by exists b, rest|intros _; holds_by_eval].
      + split; [intros H; fails_by_eval H|].
        intros (b' & rest' & [= <- <-] & Hc). contradiction. }
  split; [exact Hiff|].
  assert (Hbase : "url" ∉ csv_fieldnames benchmarks ->
                  csv_fieldnames benchmarks
                  = ["system"; "model"; "single_core"; "multi_core"]).
  { unfold csv_fieldnames. destruct benchmarks as [|b rest]; [done|].
    destruct (decide (is_Some (b !! "url"))); [|done].
    intros H. exfalso. apply H. holds_by_eval. }
  split; [exact Hbase|].
  intros Hnone. apply Hbase. rewrite Hiff. intros (b & rest & -> & Hb).
  apply (Hnone b); [left|done].
Qed.

(** C9 as stated fails under both readings of "carries a url". A later
    record with a [url] key does not bring the column when the first record
    has none; and a first record whose [url] is [None] brings the column
    although no record holds a url. *)
Lemma url_column_follows_first_record :
  ¬ url_column_iff_carried carries_url /\
  ¬ url_column_iff_carried carries_url_text.
Proof.
  split; intros H.
  - destruct (H [Sample.no_url_record; Sample.well_formed_record]) as [_ Hback].
    assert (Hin : "url" ∈ csv_fieldnames [Sample.no_url_record; Sample.well_formed_record]).
    { apply Hback. exists Sample.well_formed_record. split; [right; left|].
      unfold carries_url. vm_compute. eauto. }
    fails_by_eval Hin.
  - destruct (H [Sample.na_record]) as [Hforth _].
    destruct Hforth as (r & Hr & s & Hs).
    + holds_by_eval.
    + apply list_elem_of_singleton in Hr as ->. vm_compute in Hs. discriminate Hs.
Qed.

(** ** Writing a collection and reading it back *)

(** With distinct keys, [dict] of a list of pairs is the map of the list. *)
Lemma dict_of_pairs_fold {V} (pairs : list (string * V)) (d : gmap string V) :
  NoDup (pairs.*1) ->
  fold_left (fun d kv => <[kv.1 := kv.2]> d) pairs d = list_to_map pairs ∪ d.
Proof.
  revert d. induction pairs as [|[k v] pairs IH]; intros d Hnd.
  - cbn. by rewrite (left_id_L ∅ (∪)).
  - rewrite fmap_cons in Hnd. apply NoDup_cons in Hnd as [Hk Hnd].
    cbn [fold_left list_to_map foldr fst snd].
    rewrite IH by done. cbn.
    rewrite <- insert_union_l. symmetry. apply insert_union_r.
    by apply not_elem_of_list_to_map.
Qed.

Lemma dict_of_pairs_nodup {V} (pairs : list (string * V)) :
  NoDup (pairs.*1) -> dict_of_pairs pairs = list_to_map pairs.
Proof.
  intros H. unfold dict_of_pairs. rewrite dict_of_pairs_fold by done.
  by rewrite (right_id_L ∅ (∪)).
Qed.

Lemma json_decode_encode v : json.decode (json.encode v) = v.
Proof. by destruct v. Qed.

Lemma json_load_dump (benchmarks : list record) :
  json.load (json.dump benchmarks) = benchmarks.
Proof.
  unfold json.load, json.dump. rewrite <- list_fmap_compose.
  rewrite <- (list_fmap_id benchmarks) at 2. apply list_fmap_ext.
  intros _ b _.
  change (dict_of_pairs (prod_map id json.decode
                           <$> (prod_map id json.encode <$> map_to_list b)) = b).
  rewrite <- list_fmap_compose.
  assert (Hid : (prod_map id json.decode ∘ prod_map id json.encode) <$> map_to_list b
                = map_to_list b).
  { rewrite <- (list_fmap_id (map_to_list b)) at 2. apply list_fmap_ext.
    intros _ [k v] _. cbn. by rewrite json_decode_encode. }
  rewrite Hid, dict_of_pairs_nodup by apply NoDup_fst_map_to_list.
  apply list_to_map_to_list.
Qed.

(** Reading back a file that is there. *)
Lemma parse_input_file_json path w j :
  files w !! path = Some (DJson j) ->
  Py.endswith path ".json" = true ->
  parse_input_file path w = (inr (Some (json.load j)), w).
Proof. intros Hf He. unfold parse_input_file. by rewrite Hf, He. Qed.

Lemma parse_input_file_xml path w x :
  files w !! path = Some (DXml x) ->
  Py.endswith path ".json" = false ->
  Py.endswith path ".xml" = true ->
  parse_input_file path w
  = (inr (Some (record_of_item <$> ET.findall (ET.parse x) "benchmark")), w).
Proof. intros Hf Hj He. unfold parse_input_file. by rewrite Hf, Hj, He. Qed.


Lemma ET_text_reread (v : pyval) :
  ET.text_from_disk (ET.text_to_disk v) = blank_to_none v.
Proof. by destruct v as [|[|c r]]. Qed.

(** The element written for a record reads back as [xml_reread] says. *)
Lemma benchmark_elem_reread (r : record) :
  has_text_fields r ->
  exists elem,
    benchmark_elem r = inr elem /\
    ET.tag_of (ET.parse (ET.tostring elem)) = "benchmark" /\
    record_of_item (ET.parse (ET.tostring elem)) = xml_reread r.
Proof.
  intros ([sy Hsy] & [mo Hmo] & [si Hsi] & [mu Hmu]).
  unfold benchmark_elem, getitem, xml_reread. rewrite Hsy, Hmo, Hsi, Hmu.
  rewrite !bind_res_inr.
  destruct (r !! "url") as [u|]; rewrite bind_res_inr; eexists;
    (split; [reflexivity|]); (split; [reflexivity|]);
    cbn [from_option]; rewrite <- !ET_text_reread; reflexivity.
Qed.


Lemma benchmark_elems_reread (benchmarks : list record) :
  Forall has_text_fields benchmarks ->
  exists elems,
    for_each_res benchmark_elem benchmarks = inr elems /\
    Forall (fun e => ET.tag_of e = "benchmark") (ET.parse <$> (ET.tostring <$> elems)) /\
    record_of_item <$> (ET.parse <$> (ET.tostring <$> elems)) = xml_reread <$> benchmarks.
Proof.
  induction 1 as [|r rest Hr _ (elems & Hrun & Htags & Hre)].
  - exists []. repeat split. constructor.
  - destruct (benchmark_elem_reread r Hr) as (elem & Helem & Htag & Hrec).
    exists (elem :: elems). cbn [for_each_res]. rewrite Helem, bind_res_inr, Hrun.
    split; [reflexivity|]. rewrite !fmap_cons. split.
    + by constructor.
    + by rewrite Hrec, Hre.
Qed.




(** The cells the CSV writer makes of a record. *)
Lemma writerows_ok (fieldnames : list string) (benchmarks : list record) :
  Forall (fun r : record => dom r ⊆ (list_to_set fieldnames : gset string)) benchmarks ->
  csv.writerows fieldnames benchmarks
  = ((fun r : record =>
        (fun k => from_option csv.cell EmptyString (r !! k)) <$> fieldnames)
       <$> benchmarks,
     inr tt).
Proof.
  induction 1 as [|r rest Hr _ IH]; [done|].
  cbn [csv.writerows]. unfold csv.dict_to_list. rewrite decide_True by done.
  cbn [ret res_monad]. by rewrite IH.
Qed.







Lemma json_write_read (benchmarks : list record) path w :
  Py.endswith path ".json" = true ->
  (create_json_output benchmarks path w).1 = inr tt /\
  (parse_input_file path (create_json_output benchmarks path w).2).1
  = inr (Some benchmarks).
Proof.
  intros Hj. unfold create_json_output, write_file. cbn [fst snd].
  split; [reflexivity|].
  erewrite parse_input_file_json; [|cbn [files]; apply lookup_insert_eq|done].
  cbn [fst]. by rewrite json_load_dump.
Qed.





(** JSON gives every collection back. *)
Lemma json_round_trips : json_round_trip.
Proof.
  intros benchmarks w _.
  by apply (json_write_read benchmarks "results.json" w).
Qed.



(** * More of the program *)

(** ** File names *)

Lemma safe_filename_component_length s :
  String.length (safe_filename_component s) = String.length s.
Proof. induction s as [|c r IH]; [done|]. simpl. by rewrite IH. Qed.

Lemma safe_filename_component_chars s :
  Py.all_chars is_filename_char (safe_filename_component s) = true.
Proof.
  induction s as [|c r IH]; [done|]. cbn [safe_filename_component].
  apply all_chars_cons. split; [|exact IH].
  destruct (is_filename_char c) eqn:Hc; [exact Hc|reflexivity].
Qed.

Lemma safe_filename_component_fixed s :
  Py.all_chars is_filename_char s = true -> safe_filename_component s = s.
Proof.
  induction s as [|c r IH]; [done|]. intros [Hc Hr]%all_chars_cons.
  simpl. by rewrite Hc, (IH Hr).
Qed.

(** X1: [safe_filename_component] keeps the length of its argument, yields
    only letters, digits, [_] and [-], leaves a string of such characters
    unchanged, and so does nothing when applied twice. *)
Theorem safe_filename_component_safe (s : string) :
  String.length (safe_filename_component s) = String.length s /\
  Py.all_chars is_filename_char (safe_filename_component s) = true /\
  (Py.all_chars is_filename_char s = true -> safe_filename_component s = s) /\
  safe_filename_component (safe_filename_component s) = safe_filename_component s.
Proof.
  split; [apply safe_filename_component_length|].
  split; [apply safe_filename_component_chars|].
  split; [apply safe_filename_component_fixed|].
  apply safe_filename_component_fixed, safe_filename_component_chars.
Qed.

(** ** The coordinator, continued *)

Lemma parse_page_page_records net html_parser url page_num w :
  parse_page net html_parser url page_num w
  = (inr (page_records net html_parser url w), logged w url).
Proof. apply parse_page_run. Qed.

(** The futures hold the pages' records, in submission order. *)
Lemma submit_all_records net html_parser (urls : list string) (first : nat) w :
  for_each (submit net html_parser) (zip (seq first (length urls)) urls) w
  = (inr (zip (seq first (length urls)) (pages_records net html_parser urls w)),
     {| requests := requests w ++ urls; files := files w |}).
Proof.
  revert first w. induction urls as [|url urls IH]; intros first w.
  - simpl. rewrite app_nil_r. by destruct w.
  - cbn [length seq zip zip_with pages_records].
    rewrite for_each_cons_run. unfold submit at 1.
    rewrite bind_M_run, parse_page_page_records. cbn [fst snd ret M_monad].
    rewrite IH. cbn [logged requests files]. by rewrite <- app_assoc.
Qed.

Lemma pages_records_length net html_parser urls w :
  length (pages_records net html_parser urls w) = length urls.
Proof.
  revert w. induction urls as [|url urls IH]; intros w; [done|].
  simpl. by rewrite IH.
Qed.

(** [as_completed] only reorders. *)
Lemma insert_completed_perm {A} finish (x : nat * A) done :
  insert_completed finish x done ≡ₚ x :: done.
Proof.
  induction done as [|y rest IH]; [done|]. simpl.
  destruct (finish x.1 <? finish y.1)%nat; [done|].
  rewrite IH. apply Permutation_swap.
Qed.

Lemma as_completed_perm {A} finish (futures : list (nat * A)) :
  as_completed finish futures ≡ₚ futures.
Proof.
  unfold as_completed.
  assert (H : forall done, fold_left (fun done x => insert_completed finish x done)
                                     futures done ≡ₚ done ++ futures).
  { induction futures as [|x futures IH]; intros done; simpl.
    - by rewrite app_nil_r.
    - rewrite IH, insert_completed_perm. simpl. apply Permutation_middle. }
  by rewrite H.
Qed.



Lemma snd_zip_seq {A} (first : nat) (l : list A) :
  (zip (seq first (length l)) l).*2 = l.
Proof. apply snd_zip. by rewrite length_seq. Qed.

(** What the stage after discovery returns. *)
Lemma fetch_all_records net html_parser finish search_url total max_pages threads w :
  1 <= threads ->
  let urls := page_urls search_url (pages_to_fetch total max_pages) in
  fetch_all net html_parser finish search_url total max_pages threads w
  = (inr (concat
            (as_completed finish
               (zip (seq 1 (length urls)) (pages_records net html_parser urls w))).*2),
     {| requests := requests w ++ urls; files := files w |}).
Proof.
  intros Hthreads urls. unfold fetch_all.
  assert ((threads <=? 0) = false) as -> by lia.
  rewrite bind_M_run. cbn [ret M_monad]. fold urls.
  rewrite bind_M_run. unfold enumerate. rewrite submit_all_records.
  reflexivity.
Qed.

Lemma fetch_all_no_pool net html_parser finish search_url total max_pages threads w :
  threads <= 0 ->
  fetch_all net html_parser finish search_url total max_pages threads w
  = (inl ValueError, w).
Proof.
  intros Hthreads. unfold fetch_all.
  assert ((threads <=? 0) = true) as -> by lia. reflexivity.
Qed.

(** Discovery makes exactly one request, whether it succeeds or not. *)
Lemma discover_one_request net html_parser search_url w :
  (discover net html_parser search_url w).2 = logged w search_url.
Proof.
  unfold discover. rewrite bind_M_run, get_run.
  destruct (net (requests w) search_url) as [e|r]; [reflexivity|].
  rewrite bind_M_run. unfold lift at 1.
  destruct (requests.raise_for_status r) as [e|[]]; [reflexivity|].
  rewrite bind_M_run. unfold lift at 1.
  destruct (html_parser (requests.text r)) as [e|soup]; [reflexivity|].
  unfold lift. reflexivity.
Qed.

(** X2: [parse_geekbench] never raises. When discovery fails, or when the
    pool size is below 1, it returns the empty list after exactly one
    request (the first page) and no page fetch; the file system is never
    touched. *)
Theorem parse_geekbench_never_raises net html_parser finish query max_pages threads w :
  exists rs w',
    parse_geekbench net html_parser finish query max_pages threads w = (inr rs, w') /\
    files w' = files w /\
    (threads <= 0 ->
     rs = [] /\ requests w' = requests w ++ [search_url_of query]) /\
    (forall e, (discover net html_parser (search_url_of query) w).1 = inl e ->
     rs = [] /\ requests w' = requests w ++ [search_url_of query]).
Proof.
  unfold parse_geekbench. rewrite try_except_run, bind_M_run.
  pose proof (discover_one_request net html_parser (search_url_of query) w) as Hone.
  destruct (discover net html_parser (search_url_of query) w) as [[e|total] w1].
  - cbn [snd] in Hone. subst w1. eexists _, _. split; [reflexivity|].
    repeat split; try done.
  - cbn [snd] in Hone. subst w1.
    destruct (Z_le_gt_dec threads 0) as [Hle|Hgt].
    + rewrite fetch_all_no_pool by done. eexists _, _. split; [reflexivity|].
      repeat split; try done.
    + rewrite fetch_all_records by lia. eexists _, _. split; [reflexivity|].
      split; [reflexivity|]. split; [lia|]. intros e [=].
Qed.

(** A run whose discovery succeeds, with a pool of at least one worker. *)
Lemma parse_geekbench_success net html_parser finish query max_pages threads w total :
  (discover net html_parser (search_url_of query) w).1 = inr total ->
  1 <= threads ->
  let u := search_url_of query in
  let urls := page_urls u (pages_to_fetch total max_pages) in
  parse_geekbench net html_parser finish query max_pages threads w
  = (inr (concat
            (as_completed finish
               (zip (seq 1 (length urls))
                    (pages_records net html_parser urls (logged w u)))).*2),
     {| requests := requests w ++ [u] ++ urls; files := files w |}).
Proof.
  intros Hd Hthreads u urls. subst urls u. unfold parse_geekbench.
  rewrite try_except_run, bind_M_run.
  pose proof (discover_one_request net html_parser (search_url_of query) w) as Hone.
  destruct (discover net html_parser (search_url_of query) w) as [[e|total'] w1];
    [discriminate|].
  cbn [fst snd] in Hd, Hone. injection Hd as ->. subst w1.
  rewrite fetch_all_records by done. cbn [logged requests files].
  by rewrite <- app_assoc.
Qed.

Lemma discovery_failure_run net html_parser finish query max_pages threads w e w1 :
  discover net html_parser (search_url_of query) w = (inl e, w1) ->
  parse_geekbench net html_parser finish query max_pages threads w = (inr [], w1).
Proof.
  intros Hd. unfold parse_geekbench. by rewrite try_except_run, bind_M_run, Hd.
Qed.

(** X3: the order in which the page fetches complete changes neither the
    requests made nor the records returned, only the order of the records:
    two runs that differ in the completion order alone end in the same
    world and return permutations of one another. *)
Theorem completion_order_irrelevant
        net html_parser finish1 finish2 query max_pages threads w :
  exists r1 r2 w',
    parse_geekbench net html_parser finish1 query max_pages threads w = (inr r1, w') /\
    parse_geekbench net html_parser finish2 query max_pages threads w = (inr r2, w') /\
    r1 ≡ₚ r2.
Proof.
  destruct (discover net html_parser (search_url_of query) w) as [[e|total] w1] eqn:Hd.
  - exists [], [], w1.
    rewrite !(discovery_failure_run _ _ _ _ _ _ _ _ _ Hd). done.
  - destruct (Z_le_gt_dec threads 0) as [Hle|Hgt].
    + exists [], [], w1. unfold parse_geekbench.
      rewrite !try_except_run, !bind_M_run, Hd, !fetch_all_no_pool by done. done.
    + assert (Hd' : (discover net html_parser (search_url_of query) w).1 = inr total)
        by (by rewrite Hd).
      rewrite !(parse_geekbench_success _ _ _ _ _ _ _ _ Hd') by lia.
      eexists _, _, _. split; [reflexivity|]. split; [reflexivity|].
      by rewrite !as_completed_perm.
Qed.



Lemma merged_pages_perm net html_parser finish query max_pages threads w total :
  (discover net html_parser (search_url_of query) w).1 = inr total ->
  1 <= threads ->
  exists rs,
    (parse_geekbench net html_parser finish query max_pages threads w).1 = inr rs /\
    rs ≡ₚ concat (pages_records net html_parser
                    (page_urls (search_url_of query) (pages_to_fetch total max_pages))
                    (logged w (search_url_of query))).
Proof.
  intros Hd Hthreads.
  rewrite (parse_geekbench_success _ _ _ _ _ _ _ _ Hd Hthreads). cbn [fst].
  eexists. split; [reflexivity|].
  rewrite as_completed_perm.
  rewrite <- (pages_records_length net html_parser
                (page_urls (search_url_of query) (pages_to_fetch total max_pages))
                (logged w (search_url_of query))).
  by rewrite snd_zip_seq.
Qed.

(** Every record of a page, and so of a run, comes from a container. *)
Lemma page_records_from_container net html_parser url w (r : record) :
  r ∈ page_records net html_parser url w ->
  exists result, extract_record result = inr r.
Proof.
  intros Hr.
  destruct (parse_page_records net html_parser url 0 w
              (page_records net html_parser url w) r) as (_ & _ & result & _ & _ & _ & H).
  - by rewrite parse_page_page_records.
  - done.
  - by exists result.
Qed.

Lemma pages_records_from_container net html_parser urls w (r : record) :
  r ∈ concat (pages_records net html_parser urls w) ->
  exists result, extract_record result = inr r.
Proof.
  revert w. induction urls as [|url urls IH]; intros w; simpl.
  - by intros ?%elem_of_nil.
  - intros [H|H]%elem_of_app; [by eapply page_records_from_container|by eapply IH].
Qed.

Lemma parse_geekbench_from_container
      net html_parser finish query max_pages threads w rs (r : record) :
  (parse_geekbench net html_parser finish query max_pages threads w).1 = inr rs ->
  r ∈ rs ->
  exists result, extract_record result = inr r.
Proof.
  intros Hrun Hr.
  destruct (discover net html_parser (search_url_of query) w) as [[e|total] w1] eqn:Hd.
  - rewrite (discovery_failure_run _ _ _ _ _ _ _ _ _ Hd) in Hrun.
    injection Hrun as <-. by apply elem_of_nil in Hr.
  - destruct (Z_le_gt_dec threads 0) as [Hle|Hgt].
    + unfold parse_geekbench in Hrun.
      rewrite try_except_run, bind_M_run, Hd, fetch_all_no_pool in Hrun by done.
      injection Hrun as <-. by apply elem_of_nil in Hr.
    + assert (Hd' : (discover net html_parser (search_url_of query) w).1 = inr total)
        by (by rewrite Hd).
      destruct (merged_pages_perm net html_parser finish query max_pages threads w total
                  Hd' ltac:(lia)) as (rs' & Hrun' & Hperm).
      rewrite Hrun in Hrun'. injection Hrun' as <-.
      rewrite Hperm in Hr. by eapply pages_records_from_container.
Qed.

(** The shape of a record that comes from a container. *)
Lemma extracted_record_shape (result : bs4.located) (r : record) :
  extract_record result = inr r ->
  dom r = record_keys /\ is_record r /\ has_text_fields r /\ carries_url r.
Proof.
  intros Hex.
  destruct (extract_record_fields _ _ Hex)
    as (Hdom & Hs & Hm & [sy Hsy] & [mo Hmo] & _).
  split; [exact Hdom|]. split; [|split].
  - repeat split; eauto. by rewrite Hdom.
  - repeat split; eauto.
  - apply elem_of_dom. rewrite Hdom. holds_by_eval.
Qed.

(** X5: every record [parse_geekbench] returns has exactly the five keys
    [system], [model], [single_core], [multi_core] and [url], with strings
    in the four text fields. *)
Theorem scraped_records_have_five_keys
        net html_parser finish query max_pages threads w rs (r : record) :
  (parse_geekbench net html_parser finish query max_pages threads w).1 = inr rs ->
  r ∈ rs ->
  dom r = record_keys /\ is_record r.
Proof.
  intros Hrun Hr.
  destruct (parse_geekbench_from_container _ _ _ _ _ _ _ _ _ Hrun Hr) as [result Hex].
  destruct (extracted_record_shape _ _ Hex) as (? & ? & _). done.
Qed.

Lemma scraped_records_have_five_keys_witness :
  dom Sample.well_formed_record = record_keys /\ is_record Sample.well_formed_record.
Proof.
  apply (scraped_records_have_five_keys (Sample.answer 200 "<html>")
           (Sample.parsed Sample.three_pages) Sample.in_order
           "sm-a566b" (Some 2) 1 Sample.start
           [Sample.well_formed_record; Sample.well_formed_record]).
  - vm_compute. reflexivity.
  - left.
Defined.

(** ** Stripped text *)

Lemma lstrip_fixed sp c r :
  sp c = false -> Py.lstrip_with sp (String c r) = String c r.
Proof. intros H. simpl. by rewrite H. Qed.

Lemma lstrip_head sp s c r :
  Py.lstrip_with sp s = String c r -> sp c = false.
Proof.
  induction s as [|d s IH]; [done|]. simpl.
  destruct (sp d) eqn:Hd; [exact IH|]. by intros [= <- _].
Qed.

Lemma rstrip_keeps_head sp c r :
  sp c = false -> exists r', Py.rstrip_with sp (String c r) = String c r'.
Proof.
  intros H. simpl. destruct (Py.rstrip_with sp r) as [|d r'].
  - rewrite H. by eexists.
  - by eexists.
Qed.

Lemma rstrip_idem sp s :
  Py.rstrip_with sp (Py.rstrip_with sp s) = Py.rstrip_with sp s.
Proof.
  induction s as [|c r IH]; [done|]. simpl.
  destruct (Py.rstrip_with sp r) as [|d r'] eqn:Hr.
  - destruct (sp c) eqn:Hc; [done|]. simpl. by rewrite Hc.
  - cbn [Py.rstrip_with] in IH |- *. by rewrite IH.
Qed.

(** The two halves of [strip] leave a stripped string alone. *)
Lemma lstrip_strip sp s :
  Py.lstrip_with sp (Py.strip_with sp s) = Py.strip_with sp s.
Proof.
  unfold Py.strip_with. destruct (Py.lstrip_with sp s) as [|c r] eqn:Hl; [done|].
  pose proof (lstrip_head _ _ _ _ Hl) as Hc.
  destruct (rstrip_keeps_head sp c r Hc) as [r' ->]. by apply lstrip_fixed.
Qed.

Lemma rstrip_strip sp s :
  Py.rstrip_with sp (Py.strip_with sp s) = Py.strip_with sp s.
Proof. apply rstrip_idem. Qed.

Lemma strip_idem sp s :
  Py.strip_with sp (Py.strip_with sp s) = Py.strip_with sp s.
Proof.
  unfold Py.strip_with at 1. by rewrite lstrip_strip, rstrip_strip.
Qed.

Lemma strip_stripped s : stripped (Py.strip s).
Proof. apply strip_idem. Qed.

(** Appending after a non-empty left-stripped string, and before a
    non-empty right-stripped one. *)
Lemma lstrip_app sp a b :
  a <> EmptyString -> Py.lstrip_with sp a = a ->
  Py.lstrip_with sp (a +:+ b) = a +:+ b.
Proof.
  destruct a as [|c r]; [done|]. intros _ Ha.
  pose proof (lstrip_head _ _ _ _ Ha) as Hc. simpl. by rewrite Hc.
Qed.

Lemma rstrip_app sp a b :
  b <> EmptyString -> Py.rstrip_with sp b = b ->
  Py.rstrip_with sp (a +:+ b) = a +:+ b.
Proof.
  intros Hb Hfix. induction a as [|c r IH]; [done|].
  change (String c r +:+ b) with (String c (r +:+ b)).
  change (Py.rstrip_with sp (String c (r +:+ b)))
    with (match Py.rstrip_with sp (r +:+ b) with
          | EmptyString => if sp c then EmptyString else String c EmptyString
          | String d t => String c (String d t)
          end).
  rewrite IH.
  destruct (r +:+ b) as [|d t] eqn:Hrb; [|done].
  destruct r; [by subst|done].
Qed.

(** The words of [' '.join(stripped_strings)]. *)
Lemma join_stripped (parts : list string) :
  Forall (fun t => t <> EmptyString /\
                   Py.lstrip_with Py.isspace_char t = t /\
                   Py.rstrip_with Py.isspace_char t = t) parts ->
  (parts <> [] -> Py.join " " parts <> EmptyString) /\
  Py.lstrip_with Py.isspace_char (Py.join " " parts) = Py.join " " parts /\
  Py.rstrip_with Py.isspace_char (Py.join " " parts) = Py.join " " parts.
Proof.
  induction 1 as [|t ts (Hne & Hl & Hr) Hts (IHne & IHl & IHr)]; [done|].
  destruct ts as [|t' ts]; [done|].
  change (Py.join " " (t :: t' :: ts)) with (t +:+ " " +:+ Py.join " " (t' :: ts)).
  specialize (IHne ltac:(done)).
  split; [|split].
  - intros _. destruct t; [done|discriminate].
  - by apply lstrip_app.
  - apply rstrip_app.
    + discriminate.
    + by apply (rstrip_app _ " ").
Qed.

Lemma stripped_strings_words (el : bs4.located) :
  Forall (fun t => t <> EmptyString /\
                   Py.lstrip_with Py.isspace_char t = t /\
                   Py.rstrip_with Py.isspace_char t = t)
         (bs4.stripped_strings el).
Proof.
  unfold bs4.stripped_strings. apply Forall_forall.
  intros t [Hne Hin]%list_elem_of_filter.
  apply list_elem_of_fmap in Hin as (s & -> & _).
  split; [done|]. split; [apply lstrip_strip|apply rstrip_strip].
Qed.

Lemma join_words_stripped (el : bs4.located) :
  stripped (Py.join " " (bs4.stripped_strings el)).
Proof.
  destruct (join_stripped _ (stripped_strings_words el)) as (_ & Hl & Hr).
  unfold stripped, Py.strip, Py.strip_with. by rewrite Hl, Hr.
Qed.

(** X6: in every record of a page the four text fields are strings without
    leading or trailing white space: [strip] leaves each of them unchanged. *)
Theorem page_record_text_is_stripped net html_parser url page_num w rs (r : record) :
  (parse_page net html_parser url page_num w).1 = inr rs ->
  r ∈ rs ->
  exists system model single_core multi_core,
    r !! "system" = Some (PStr system) /\ stripped system /\
    r !! "model" = Some (PStr model) /\ stripped model /\
    r !! "single_core" = Some (PStr single_core) /\ stripped single_core /\
    r !! "multi_core" = Some (PStr multi_core) /\ stripped multi_core.
Proof.
  intros Hrun Hr.
  destruct (parse_page_records _ _ _ _ _ _ _ Hrun Hr)
    as (_ & _ & result & _ & _ & _ & Hex).
  clear Hrun Hr. unfold extract_record in Hex.
  assert (Hscore : forall i,
             stripped match bs4.select sel_score result !! i with
                      | Some s => Py.strip (bs4.text s)
                      | None => "N/A"
                      end).
  { intros i. destruct (bs4.select sel_score result !! i); [apply strip_stripped|done]. }
  destruct (bs4.select_one sel_result_link result) as [a|].
  - destruct (bs4.attr a "href") as [e|href]; [discriminate|].
    rewrite !bind_res_inr in Hex. cbn [ret res_monad] in Hex.
    rewrite bind_res_inr in Hex.
    destruct (bs4.select_one sel_model result) as [m|]; [|discriminate].
    rewrite bind_res_inr in Hex. injection Hex as <-.
    eexists _, _, _, _.
    split; [by simplify_map_eq|]. split; [apply strip_stripped|].
    split; [by simplify_map_eq|]. split; [apply join_words_stripped|].
    split; [by simplify_map_eq|]. split; [apply Hscore|].
    split; [by simplify_map_eq|]. apply Hscore.
  - cbn [ret res_monad] in Hex. rewrite bind_res_inr in Hex.
    destruct (bs4.select_one sel_model result) as [m|]; [|discriminate].
    rewrite bind_res_inr in Hex. injection Hex as <-.
    eexists _, _, _, _.
    split; [by simplify_map_eq|]. split; [done|].
    split; [by simplify_map_eq|]. split; [apply join_words_stripped|].
    split; [by simplify_map_eq|]. split; [apply Hscore|].
    split; [by simplify_map_eq|]. apply Hscore.
Qed.

Lemma page_record_text_is_stripped_witness :
  exists system model single_core multi_core,
    Sample.well_formed_record !! "system" = Some (PStr system) /\ stripped system /\
    Sample.well_formed_record !! "model" = Some (PStr model) /\ stripped model /\
    Sample.well_formed_record !! "single_core" = Some (PStr single_core) /\
    stripped single_core /\
    Sample.well_formed_record !! "multi_core" = Some (PStr multi_core) /\
    stripped multi_core.
Proof.
  apply (page_record_text_is_stripped (Sample.answer 200 "<html>")
           (Sample.parsed Sample.mixed_page) "u" 1 Sample.start
           [Sample.well_formed_record]).
  - vm_compute. reflexivity.
  - left.
Defined.

(** ** Statistics, continued *)

(** The comprehension looks at the two score fields only. *)
Lemma valid_scores_same_scores (l l' : list record) :
  Forall2 same_scores l l' -> valid_scores l = valid_scores l'.
Proof.
  induction 1 as [|a b l l' [Hs Hm] _ IH]; [done|].
  cbn [valid_scores]. unfold getitem. by rewrite Hs, Hm, IH.
Qed.

(** X7: [calculate_statistics] reads nothing but [single_core] and
    [multi_core]: two collections whose records agree, one by one, on these
    two fields have the same statistics, or raise the same exception. *)
Theorem statistics_read_scores_only (l l' : list record) :
  Forall2 same_scores l l' -> calculate_statistics l = calculate_statistics l'.
Proof.
  intros H. unfold calculate_statistics. by rewrite (valid_scores_same_scores _ _ H).
Qed.

Lemma statistics_read_scores_only_witness :
  calculate_statistics [Sample.well_formed_record]
  = calculate_statistics
      [(<["system" := PStr "other"]> (delete "url" Sample.well_formed_record) : record)].
Proof.
  apply statistics_read_scores_only.
  constructor; [|constructor]. split; vm_compute; reflexivity.
Defined.

(** Sums, minima and maxima of a list. *)
Lemma fold_add_from (l : list Z) (a : Z) :
  fold_left Z.add l a = a + fold_left Z.add l 0.
Proof.
  revert a. induction l as [|x l IH]; intros a; simpl; [lia|].
  rewrite (IH (a + x)), (IH (0 + x)). lia.
Qed.

Lemma sum_list_cons x l : sum_list (x :: l) = x + sum_list l.
Proof. unfold sum_list. simpl. apply fold_add_from. Qed.

Lemma sum_list_perm (l l' : list Z) : l ≡ₚ l' -> sum_list l = sum_list l'.
Proof.
  induction 1 as [|x l l' _ IH|x y l|l l' l'' _ IH1 _ IH2];
    rewrite ?sum_list_cons; try lia; congruence.
Qed.

Lemma min_list_least x (xs : list Z) :
  Py.min_list x xs ∈ x :: xs /\ forall y, y ∈ x :: xs -> Py.min_list x xs <= y.
Proof.
  unfold Py.min_list. revert x. induction xs as [|z xs IH]; intros x; simpl.
  - split; [left|]. intros y ->%list_elem_of_singleton. lia.
  - destruct (IH (Z.min x z)) as [Hin Hle]. split.
    + apply elem_of_cons in Hin as [Heq|Hin].
      * rewrite Heq. destruct (Z.min_spec x z) as [[_ ->]|[_ ->]];
          [left|right; left].
      * right; by right.
    + intros y Hy. assert (fold_left Z.min xs (Z.min x z) <= Z.min x z)
        by (apply Hle; left).
      apply elem_of_cons in Hy as [->|Hy]; [lia|].
      apply elem_of_cons in Hy as [->|Hy]; [lia|].
      apply Hle. by right.
Qed.

Lemma max_list_greatest x (xs : list Z) :
  Py.max_list x xs ∈ x :: xs /\ forall y, y ∈ x :: xs -> y <= Py.max_list x xs.
Proof.
  unfold Py.max_list. revert x. induction xs as [|z xs IH]; intros x; simpl.
  - split; [left|]. intros y ->%list_elem_of_singleton. lia.
  - destruct (IH (Z.max x z)) as [Hin Hle]. split.
    + apply elem_of_cons in Hin as [Heq|Hin].
      * rewrite Heq. destruct (Z.max_spec x z) as [[_ ->]|[_ ->]];
          [right; left|left].
      * right; by right.
    + intros y Hy. assert (Z.max x z <= fold_left Z.max xs (Z.max x z))
        by (apply Hle; left).
      apply elem_of_cons in Hy as [->|Hy]; [lia|].
      apply elem_of_cons in Hy as [->|Hy]; [lia|].
      apply Hle. by right.
Qed.

Lemma min_list_perm x xs y ys :
  x :: xs ≡ₚ y :: ys -> Py.min_list x xs = Py.min_list y ys.
Proof.
  intros Hp.
  destruct (min_list_least x xs) as [Hin Hle].
  destruct (min_list_least y ys) as [Hin' Hle'].
  rewrite Hp in Hin. rewrite <- Hp in Hin'.
  specialize (Hle _ Hin'). specialize (Hle' _ Hin). lia.
Qed.

Lemma max_list_perm x xs y ys :
  x :: xs ≡ₚ y :: ys -> Py.max_list x xs = Py.max_list y ys.
Proof.
  intros Hp.
  destruct (max_list_greatest x xs) as [Hin Hle].
  destruct (max_list_greatest y ys) as [Hin' Hle'].
  rewrite Hp in Hin. rewrite <- Hp in Hin'.
  specialize (Hle _ Hin'). specialize (Hle' _ Hin). lia.
Qed.

Lemma summarize_perm (l l' : list (Z * Z)) : l ≡ₚ l' -> summarize l = summarize l'.
Proof.
  intros Hp. destruct l as [|[s0 m0] rest], l' as [|[s0' m0'] rest'].
  - done.
  - by apply Permutation_nil_cons in Hp.
  - symmetry in Hp. by apply Permutation_nil_cons in Hp.
  - unfold summarize.
    assert (Hs : s0 :: rest.*1 ≡ₚ s0' :: rest'.*1)
      by (by apply (fmap_Permutation fst) in Hp).
    assert (Hm : m0 :: rest.*2 ≡ₚ m0' :: rest'.*2)
      by (by apply (fmap_Permutation snd) in Hp).
    rewrite (Permutation_length Hp).
    rewrite (sum_list_perm _ _ (fmap_Permutation fst _ _ Hp)).
    rewrite (sum_list_perm _ _ (fmap_Permutation snd _ _ Hp)).
    by rewrite (min_list_perm _ _ _ _ Hs), (max_list_perm _ _ _ _ Hs),
               (min_list_perm _ _ _ _ Hm), (max_list_perm _ _ _ _ Hm).
Qed.


(** X8: the statistics do not depend on the order of the collection (for
    records whose digit scores are decimal, on which they are defined). *)
Theorem statistics_order_independent (l l' : list record) :
  Forall decimal_scores l -> l ≡ₚ l' ->
  calculate_statistics l = calculate_statistics l'.
Proof.
  intros Hl Hp.
  assert (Hl' : Forall decimal_scores l') by (by rewrite <- Hp).
  unfold calculate_statistics.
  rewrite (valid_scores_decimal _ Hl), (valid_scores_decimal _ Hl'), !bind_res_inr.
  cbn [ret res_monad]. f_equal. apply summarize_perm. by rewrite Hp.
Qed.

Lemma sample_decimal_scores :
  decimal_scores Sample.na_record /\ decimal_scores Sample.well_formed_record /\
  decimal_scores Sample.no_url_record.
Proof.
  repeat split; eexists _, _;
    (split; [vm_compute; reflexivity|]); (split; [vm_compute; reflexivity|]);
    split; vm_compute; congruence.
Qed.

Lemma statistics_order_independent_witness :
  calculate_statistics [Sample.na_record; Sample.well_formed_record; Sample.no_url_record]
  = calculate_statistics [Sample.no_url_record; Sample.na_record; Sample.well_formed_record].
Proof.
  destruct sample_decimal_scores as (Hna & Hwf & Hno).
  apply statistics_order_independent.
  - by repeat constructor.
  - apply (Permutation_app_comm [Sample.na_record; Sample.well_formed_record]
                                [Sample.no_url_record]).
Defined.








(** ** Writers and reader, continued *)

Lemma for_each_res_app_error {A B} (f : A -> res B) (good rest : list A) (b : A) e :
  Forall (fun x => exists y, f x = inr y) good -> f b = inl e ->
  for_each_res f (good ++ b :: rest) = inl e.
Proof.
  intros Hgood Hb. induction Hgood as [|x good [y Hx] _ IH].
  - cbn [app for_each_res]. by rewrite Hb.
  - cbn [app for_each_res]. by rewrite Hx, bind_res_inr, IH.
Qed.

Lemma benchmark_elem_missing (b : record) :
  ¬ has_text_fields b ->
  exists k, benchmark_elem b = inl (KeyError k) /\ b !! k = None /\
            k ∈ ["system"; "model"; "single_core"; "multi_core"].
Proof.
  intros Hno. unfold benchmark_elem, getitem.
  destruct (b !! "system") as [sy|] eqn:Hsy;
    [|exists "system"; repeat split; [done|holds_by_eval]].
  destruct (b !! "model") as [mo|] eqn:Hmo;
    [|exists "model"; repeat split; [done|holds_by_eval]].
  destruct (b !! "single_core") as [si|] eqn:Hsi;
    [|exists "single_core"; repeat split; [done|holds_by_eval]].
  destruct (b !! "multi_core") as [mu|] eqn:Hmu;
    [|exists "multi_core"; repeat split; [done|holds_by_eval]].
  exfalso. apply Hno. unfold has_text_fields. rewrite Hsy, Hmo, Hsi, Hmu. eauto.
Qed.

(** X11: the XML writer builds the whole tree before it opens the file: a
    record that lacks one of [system], [model], [single_core] and
    [multi_core] makes it raise [KeyError] for the first missing one, and
    nothing is written. *)
Theorem xml_writer_missing_field (good rest : list record) (b : record) path w :
  Forall has_text_fields good -> ¬ has_text_fields b ->
  exists k,
    create_xml_output (good ++ b :: rest) path w = (inl (KeyError k), w) /\
    b !! k = None /\
    k ∈ ["system"; "model"; "single_core"; "multi_core"].
Proof.
  intros Hgood Hb. destruct (benchmark_elem_missing b Hb) as (k & Hk & Hnone & Hin).
  exists k. split; [|done].
  unfold create_xml_output. rewrite bind_M_run. unfold lift at 1.
  rewrite (for_each_res_app_error benchmark_elem good rest b (KeyError k)); [done| |done].
  eapply Forall_impl; [exact Hgood|]. intros r Hr.
  destruct (benchmark_elem_reread r Hr) as (elem & Helem & _). eauto.
Qed.

Lemma xml_writer_missing_field_witness :
  exists k,
    create_xml_output
      [Sample.well_formed_record; (delete "model" Sample.na_record : record)]
      "results.xml" Sample.start
    = (inl (KeyError k), Sample.start) /\
    (delete "model" Sample.na_record : record) !! k = None.
Proof.
  destruct (xml_writer_missing_field [Sample.well_formed_record] []
              (delete "model" Sample.na_record) "results.xml" Sample.start)
    as (k & Hrun & Hnone & _).
  - constructor; [|constructor]. repeat split; vm_compute; eauto.
  - intros (_ & [v Hv] & _). vm_compute in Hv. discriminate Hv.
  - exists k. split; assumption.
Defined.

Lemma writerows_app_error (fieldnames : list string) (good rest : list record) (b : record) :
  Forall (fun r : record => dom r ⊆ (list_to_set fieldnames : gset string)) good ->
  ¬ dom b ⊆ (list_to_set fieldnames : gset string) ->
  csv.writerows fieldnames (good ++ b :: rest)
  = ((fun r : record =>
        (fun k => from_option csv.cell EmptyString (r !! k)) <$> fieldnames) <$> good,
     inl ValueError).
Proof.
  intros Hgood Hb. induction Hgood as [|r good Hr _ IH].
  - cbn [app csv.writerows]. unfold csv.dict_to_list. by rewrite decide_False.
  - cbn [app csv.writerows]. unfold csv.dict_to_list at 1.
    rewrite decide_True by done. cbn [ret res_monad]. by rewrite IH.
Qed.

(** X12: the CSV writer writes as it goes: when a record has a key outside
    the header, it raises [ValueError] and leaves a file with the header
    and the rows of the records before that one. *)
Theorem csv_writer_partial_file (good rest : list record) (b : record) path w :
  let fieldnames := csv_fieldnames (good ++ b :: rest) in
  Forall (fun r : record => dom r ⊆ (list_to_set fieldnames : gset string)) good ->
  ¬ dom b ⊆ (list_to_set fieldnames : gset string) ->
  create_csv_output (good ++ b :: rest) path w
  = (inl ValueError,
     with_files w
       (<[path := DCsv (fieldnames ::
                        ((fun r : record =>
                            (fun k => from_option csv.cell EmptyString (r !! k))
                              <$> fieldnames) <$> good))]> (files w))).
Proof.
  intros fieldnames Hgood Hb. unfold create_csv_output. fold fieldnames.
  by rewrite (writerows_app_error _ _ _ _ Hgood Hb).
Qed.

Lemma csv_writer_partial_file_witness :
  create_csv_output [Sample.no_url_record; Sample.well_formed_record]
                    "results.csv" Sample.start
  = (inl ValueError,
     with_files Sample.start
       {[ "results.csv" :=
            DCsv [["system"; "model"; "single_core"; "multi_core"];
                  ["Pixel"; "Tensor"; "1000"; "2000"]] ]}).
Proof.
  refine (eq_trans
            (csv_writer_partial_file [Sample.no_url_record] []
               Sample.well_formed_record "results.csv" Sample.start _ _) _).
  - constructor; [|constructor]. holds_by_eval.
  - intros H. fails_by_eval H.
  - vm_compute. reflexivity.
Defined.

(** X13: [parse_input_file] never raises and changes nothing: it returns a
    value and leaves the world as it was. The value is [None] when the
    file does not exist and when its name ends in none of [.json], [.xml]
    and [.csv]. *)
Theorem parse_input_file_returns path w :
  exists result,
    parse_input_file path w = (inr result, w) /\
    (files w !! path = None -> result = None) /\
    (Py.endswith path ".json" = false -> Py.endswith path ".xml" = false ->
     Py.endswith path ".csv" = false -> result = None).
Proof.
  unfold parse_input_file. destruct (files w !! path) as [content|].
  - rewrite try_except_run.
    destruct (Py.endswith path ".json");
      [destruct content; eexists; (split; [reflexivity|]); split; done|].
    destruct (Py.endswith path ".xml");
      [destruct content; eexists; (split; [reflexivity|]); split; done|].
    destruct (Py.endswith path ".csv");
      [destruct content; eexists; (split; [reflexivity|]); split; done|].
    eexists. split; [reflexivity|]. split; done.
  - eexists. split; [reflexivity|]. split; done.
Qed.

Lemma record_of_item_dom (item : ET.Element) : dom (record_of_item item) = record_keys.
Proof.
  unfold record_of_item, record_keys. rewrite !dom_insert_L, dom_empty_L. set_solver.
Qed.

(** X14: every record read from an XML file has exactly the five keys,
    whatever the file holds: one record per [<benchmark>] child of the
    root, and an element without children reads as [Unknown], [Unknown],
    [N/A], [N/A] and no url. *)
Theorem xml_reader_fills_five_keys path w (x : xml_doc) :
  files w !! path = Some (DXml x) ->
  Py.endswith path ".json" = false -> Py.endswith path ".xml" = true ->
  exists rs,
    parse_input_file path w = (inr (Some rs), w) /\
    length rs = length (ET.findall (ET.parse x) "benchmark") /\
    Forall (fun r : record => dom r = record_keys) rs /\
    (forall text, record_of_item (ET.Elem "benchmark" text [])
                  = <["system" := PStr "Unknown"]>
                    (<["model" := PStr "Unknown"]>
                    (<["single_core" := PStr "N/A"]>
                    (<["multi_core" := PStr "N/A"]>
                    (<["url" := PNone]> ∅))))).
Proof.
  intros Hf Hj Hx. rewrite (parse_input_file_xml _ _ _ Hf Hj Hx).
  eexists. split; [reflexivity|]. split; [by rewrite length_fmap|]. split; [|done].
  apply Forall_fmap, Forall_forall. intros item _. apply record_of_item_dom.
Qed.

Lemma xml_reader_fills_five_keys_witness :
  exists rs,
    parse_input_file "in.xml"
      (with_files Sample.start
         {[ "in.xml" := DXml (XmlElem "benchmarks" ""
                                [XmlElem "benchmark" "" []; XmlElem "note" "x" []]) ]})
    = (inr (Some rs),
       with_files Sample.start
         {[ "in.xml" := DXml (XmlElem "benchmarks" ""
                                [XmlElem "benchmark" "" []; XmlElem "note" "x" []]) ]}) /\
    length rs = 1%nat.
Proof.
  destruct (xml_reader_fills_five_keys "in.xml"
              (with_files Sample.start
                 {[ "in.xml" := DXml (XmlElem "benchmarks" ""
                                        [XmlElem "benchmark" "" [];
                                         XmlElem "note" "x" []]) ]})
              (XmlElem "benchmarks" "" [XmlElem "benchmark" "" []; XmlElem "note" "x" []]))
    as (rs & Hrun & Hlen & _).
  - vm_compute. reflexivity.
  - vm_compute. reflexivity.
  - vm_compute. reflexivity.
  - exists rs. split; [exact Hrun|]. rewrite Hlen. vm_compute. reflexivity.
Defined.
















(** ** From the scraper to the files *)

Lemma create_xml_output_ok (benchmarks : list record) path w :
  Forall has_text_fields benchmarks ->
  exists x, create_xml_output benchmarks path w
            = (inr tt, with_files w (<[path := DXml x]> (files w))).
Proof.
  intros Hfields.
  destruct (benchmark_elems_reread benchmarks Hfields) as (elems & Hrun & _).
  unfold create_xml_output. rewrite bind_M_run. unfold lift at 1. rewrite Hrun.
  eexists. reflexivity.
Qed.

Lemma create_json_output_ok (benchmarks : list record) path w :
  create_json_output benchmarks path w
  = (inr tt, with_files w (<[path := DJson (json.dump benchmarks)]> (files w))).
Proof. reflexivity. Qed.

Lemma five_keys_in_header (benchmarks : list record) :
  Forall (fun r : record => dom r = record_keys) benchmarks ->
  (benchmarks <> [] ->
   csv_fieldnames benchmarks = ["system"; "model"; "single_core"; "multi_core"; "url"]) /\
  Forall (fun r : record =>
            dom r ⊆ (list_to_set (csv_fieldnames benchmarks) : gset string)) benchmarks.
Proof.
  intros Hkeys. destruct benchmarks as [|b rest]; [split; [done|constructor]|].
  assert (Hfields : csv_fieldnames (b :: rest)
                    = ["system"; "model"; "single_core"; "multi_core"; "url"]).
  { unfold csv_fieldnames. rewrite decide_True; [done|].
    apply Forall_cons in Hkeys as [Hb _]. apply elem_of_dom. rewrite Hb. holds_by_eval. }
  split; [done|]. rewrite Hfields.
  eapply Forall_impl; [exact Hkeys|]. intros r ->. holds_by_eval.
Qed.

Lemma create_csv_output_ok (benchmarks : list record) path w :
  Forall (fun r : record =>
            dom r ⊆ (list_to_set (csv_fieldnames benchmarks) : gset string)) benchmarks ->
  exists rows, create_csv_output benchmarks path w
               = (inr tt, with_files w (<[path := DCsv rows]> (files w))).
Proof.
  intros Hkeys. unfold create_csv_output. rewrite (writerows_ok _ _ Hkeys).
  eexists. reflexivity.
Qed.

Lemma scraped_shape net html_parser finish query max_pages threads w rs :
  (parse_geekbench net html_parser finish query max_pages threads w).1 = inr rs ->
  Forall (fun r : record => dom r = record_keys) rs /\
  Forall has_text_fields rs /\
  Forall (fun r : record =>
            exists s m, r !! "single_core" = Some (PStr s) /\
                        r !! "multi_core" = Some (PStr m)) rs.
Proof.
  intros Hrun.
  assert (H : forall r, r ∈ rs -> exists result, extract_record result = inr r).
  { intros r Hr. by eapply parse_geekbench_from_container. }
  repeat split; apply Forall_forall; intros r Hr;
    destruct (H r Hr) as [result Hex];
    destruct (extracted_record_shape _ _ Hex) as (Hdom & _ & Hfields & _); try done.
  destruct (extract_record_fields _ _ Hex) as (_ & Hs & Hm & _). eauto.
Qed.

(** X18: whatever [parse_geekbench] returns can be written in the three
    record formats without an exception; the CSV header of a non-empty
    result has the [url] column; and the JSON file reads back as the
    result itself. *)
Theorem scraped_collection_is_writable
        net html_parser finish query max_pages threads w rs path w' :
  (parse_geekbench net html_parser finish query max_pages threads w).1 = inr rs ->
  (create_xml_output rs path w').1 = inr tt /\
  (create_json_output rs path w').1 = inr tt /\
  (create_csv_output rs path w').1 = inr tt /\
  (rs <> [] ->
   csv_fieldnames rs = ["system"; "model"; "single_core"; "multi_core"; "url"]) /\
  (Py.endswith path ".json" = true ->
   (parse_input_file path (create_json_output rs path w').2).1 = inr (Some rs)).
Proof.
  intros Hrun. destruct (scraped_shape _ _ _ _ _ _ _ _ Hrun) as (Hdom & Hfields & _).
  destruct (five_keys_in_header rs Hdom) as [Hheader Hkeys].
  destruct (create_xml_output_ok rs path w' Hfields) as [x ->].
  destruct (create_csv_output_ok rs path w' Hkeys) as [rows ->].
  repeat split; try done.
  intros Hj. by apply json_write_read.
Qed.

Lemma scraped_collection_is_writable_witness :
  (create_csv_output [Sample.well_formed_record; Sample.well_formed_record]
                     "results.csv" Sample.start).1 = inr tt.
Proof.
  apply (scraped_collection_is_writable (Sample.answer 200 "<html>")
           (Sample.parsed Sample.three_pages) Sample.in_order
           "sm-a566b" (Some 2) 1 Sample.start
           [Sample.well_formed_record; Sample.well_formed_record]
           "results.csv" Sample.start).
  vm_compute. reflexivity.
Defined.



(** ** The command line *)

Lemma valid_scores_str_scores (l : list record) e :
  Forall (fun r : record =>
            exists s m, r !! "single_core" = Some (PStr s) /\
                        r !! "multi_core" = Some (PStr m)) l ->
  valid_scores l = inl e -> e = ValueError.
Proof.
  induction 1 as [|b rest (s & m & Hs & Hm) _ IH]; [discriminate|].
  cbn [valid_scores]. unfold getitem. rewrite Hs, Hm. cbn.
  destruct (Py.isdigit s); cbn.
  - destruct (Py.isdigit m); cbn.
    + destruct (Py.int s); cbn; [|congruence].
      destruct (Py.int m); cbn; [|congruence].
      destruct (valid_scores rest); cbn; [|discriminate]. intros [= <-]. by apply IH.
    + destruct (valid_scores rest); cbn; [|discriminate]. intros [= <-]. by apply IH.
  - destruct (valid_scores rest); cbn; [|discriminate]. intros [= <-]. by apply IH.
Qed.

Lemma main_outputs net html_parser finish args timestamp :
  main net html_parser finish args timestamp
  = if negb (truthy (argparse.query args)) && negb (truthy (argparse.file args))
    then sys_exit 2
    else
      results <-
        (if truthy (argparse.file args)
         then
           results <- run (parse_input_file (default EmptyString (argparse.file args))) ;;
           match results with
           | None => sys_exit 1
           | Some results => ret results
           end
         else
           run (parse_geekbench net html_parser finish
                  (default EmptyString (argparse.query args))
                  (argparse.pages args) (Z.max 1 (argparse.threads args)))) ;;
      match results with
      | [] => sys_exit 1
      | _ :: _ =>
          write_outputs results (base_name_of args timestamp)
            (xml_selected args)
            (argparse.json args || argparse.all args)
            (argparse.csv args || argparse.all args)
            (argparse.stats args || argparse.all args)
      end.
Proof.
  unfold main, write_outputs, base_name_of, xml_selected.
  assert ((if argparse.threads args <? 1 then 1 else argparse.threads args)
          = Z.max 1 (argparse.threads args)) as ->.
  { destruct (Z.ltb_spec (argparse.threads args) 1); lia. }
  destruct (negb (truthy (argparse.query args)) && negb (truthy (argparse.file args)));
    [reflexivity|].
  destruct (truthy (argparse.file args)),
    (argparse.xml args), (argparse.json args), (argparse.csv args),
    (argparse.stats args), (argparse.all args); reflexivity.
Qed.

Lemma bind_P_run {A B} (m : P A) (k : A -> P B) s :
  (x <- m ;; k x) s
  = match m s with
    | (inl e, s') => (inl e, s')
    | (inr a, s') => k a s'
    end.
Proof. reflexivity. Qed.

Lemma run_run {A} (m : M A) s :
  run m s = (match (m (world_of s)).1 with
             | inl e => inl (Uncaught e)
             | inr a => inr a
             end, with_world s (m (world_of s)).2).
Proof. unfold run, with_world. by destruct (m (world_of s)) as [[e|a] w]. Qed.

Lemma create_xml_output_effect (benchmarks : list record) path w :
  (exists x, create_xml_output benchmarks path w
             = (inr tt, with_files w (<[path := DXml x]> (files w)))) \/
  (exists e, create_xml_output benchmarks path w = (inl e, w)).
Proof.
  unfold create_xml_output. rewrite bind_M_run. unfold lift at 1.
  destruct (for_each_res benchmark_elem benchmarks) as [e|elems].
  - right. by exists e.
  - left. eexists. reflexivity.
Qed.

Lemma create_csv_output_effect (benchmarks : list record) path w :
  exists out rows,
    create_csv_output benchmarks path w
    = (out, with_files w (<[path := DCsv rows]> (files w))).
Proof.
  unfold create_csv_output.
  destruct (csv.writerows (csv_fieldnames benchmarks) benchmarks) as [rows outcome].
  rewrite bind_M_run. cbn. eexists _, _. reflexivity.
Qed.

Lemma with_world_with_world s w w' : with_world (with_world s w) w' = with_world s w'.
Proof. reflexivity. Qed.

Lemma with_files_same w : with_files w (files w) = w.
Proof. by destruct w. Qed.

Lemma with_world_same s : with_world s (world_of s) = s.
Proof. by destruct s. Qed.

(** The output phase never exits, makes no request and only adds files. *)
Lemma write_outputs_effect results base bx bj bc bst s :
  exists out s',
    write_outputs results base bx bj bc bst s = (out, s') /\
    (forall code, out <> inl (SystemExit code)) /\
    requests (world_of s') = requests (world_of s) /\
    dom (files (world_of s)) ⊆ dom (files (world_of s')) /\
    dom (stats_files s) ⊆ dom (stats_files s').
Proof.
  unfold write_outputs. rewrite bind_P_run.
  assert (exists o1 s1,
    (if bx then run (create_xml_output results (base +:+ ".xml")) else ret tt) s
    = (o1, s1) /\ (forall code, o1 <> inl (SystemExit code)) /\
    requests (world_of s1) = requests (world_of s) /\
    dom (files (world_of s)) ⊆ dom (files (world_of s1)) /\
    stats_files s1 = stats_files s) as (o1 & s1 & -> & Ho1 & Hr1 & Hf1 & Hs1).
  { destruct bx; [|eexists _, _; split; [reflexivity|]; repeat split; done].
    rewrite run_run.
    destruct (create_xml_output_effect results (base +:+ ".xml") (world_of s))
      as [[x ->]|[e ->]]; eexists _, _; (split; [reflexivity|]); cbn;
      repeat split; try done.
    rewrite dom_insert_L. set_solver. }
  destruct o1 as [e1|[]].
  { eexists _, _. split; [reflexivity|]. repeat split; try done. by rewrite Hs1. }
  rewrite bind_P_run.
  assert (exists s2,
    (if bj then run (create_json_output results (base +:+ ".json")) else ret tt) s1
    = (inr tt, s2) /\
    requests (world_of s2) = requests (world_of s1) /\
    dom (files (world_of s1)) ⊆ dom (files (world_of s2)) /\
    stats_files s2 = stats_files s1) as (s2 & -> & Hr2 & Hf2 & Hs2).
  { destruct bj; [|eexists; split; [reflexivity|]; repeat split; done].
    rewrite run_run. eexists. split; [reflexivity|]. cbn. repeat split; try done.
    rewrite dom_insert_L. set_solver. }
  rewrite bind_P_run.
  assert (exists o3 s3,
    (if bc then run (create_csv_output results (base +:+ ".csv")) else ret tt) s2
    = (o3, s3) /\ (forall code, o3 <> inl (SystemExit code)) /\
    requests (world_of s3) = requests (world_of s2) /\
    dom (files (world_of s2)) ⊆ dom (files (world_of s3)) /\
    stats_files s3 = stats_files s2) as (o3 & s3 & -> & Ho3 & Hr3 & Hf3 & Hs3).
  { destruct bc; [|eexists _, _; split; [reflexivity|]; repeat split; done].
    rewrite run_run.
    destruct (create_csv_output_effect results (base +:+ ".csv") (world_of s2))
      as (out & rows & ->). eexists _, _. split; [reflexivity|]. cbn.
    repeat split; try done.
    - by destruct out.
    - rewrite dom_insert_L. set_solver. }
  destruct o3 as [e3|[]].
  { eexists _, _. split; [reflexivity|]. repeat split; try done.
    - congruence.
    - etrans; [exact Hf1|]. etrans; [exact Hf2|]. exact Hf3.
    - by rewrite Hs3, Hs2, Hs1. }
  assert (Hr : requests (world_of s3) = requests (world_of s)) by congruence.
  assert (Hf : dom (files (world_of s)) ⊆ dom (files (world_of s3))).
  { etrans; [exact Hf1|]. etrans; [exact Hf2|]. exact Hf3. }
  assert (Hs : stats_files s3 = stats_files s) by congruence.
  destruct bst; [|eexists _, _; split; [reflexivity|]; repeat split; try done;
                  by rewrite Hs].
  unfold create_stats_output. rewrite !bind_P_run. unfold call, write_stats.
  destruct (calculate_statistics results) as [e|st].
  - eexists _, _. split; [reflexivity|]. repeat split; try done. by rewrite Hs.
  - eexists _, _. split; [reflexivity|]. cbn. repeat split; try done.
    rewrite dom_insert_L, Hs. set_solver.
Qed.

Lemma create_xml_output_elems (benchmarks : list record) elems path w :
  for_each_res benchmark_elem benchmarks = inr elems ->
  create_xml_output benchmarks path w
  = (inr tt, with_files w (<[path := xml_document elems]> (files w))).
Proof.
  intros Hrun. unfold create_xml_output. rewrite bind_M_run. unfold lift at 1.
  by rewrite Hrun.
Qed.

Lemma create_csv_output_rows (benchmarks : list record) path w :
  Forall (fun r : record =>
            dom r ⊆ (list_to_set (csv_fieldnames benchmarks) : gset string)) benchmarks ->
  create_csv_output benchmarks path w
  = (inr tt, with_files w (<[path := csv_document benchmarks]> (files w))).
Proof.
  intros Hkeys. unfold create_csv_output, csv_document.
  by rewrite (writerows_ok _ _ Hkeys).
Qed.

(** The output phase on a collection every writer accepts. *)
Lemma write_outputs_writable (rs : list record) base bx bj bc bst s :
  Forall has_text_fields rs ->
  Forall (fun r : record =>
            dom r ⊆ (list_to_set (csv_fieldnames rs) : gset string)) rs ->
  exists elems,
    for_each_res benchmark_elem rs = inr elems /\
    let fs := written bc (base +:+ ".csv") (csv_document rs)
                (written bj (base +:+ ".json") (DJson (json.dump rs))
                   (written bx (base +:+ ".xml") (xml_document elems)
                      (files (world_of s)))) in
    let w' := with_files (world_of s) fs in
    write_outputs rs base bx bj bc bst s
    = if bst
      then match calculate_statistics rs with
           | inl e => (inl (Uncaught e), with_world s w')
           | inr st =>
               (inr tt, {| world_of := w';
                           stats_files := <[base +:+ "_stats.json" := st]> (stats_files s) |})
           end
      else (inr tt, with_world s w').
Proof.
  intros Htext Hcsv.
  destruct (benchmark_elems_reread rs Htext) as (elems & Helems & _).
  exists elems. split; [exact Helems|].
  set (w1 := with_files (world_of s)
               (written bx (base +:+ ".xml") (xml_document elems) (files (world_of s)))).
  set (w2 := with_files w1
               (written bj (base +:+ ".json") (DJson (json.dump rs)) (files w1))).
  cbn zeta. unfold write_outputs. rewrite bind_P_run.
  assert ((if bx then run (create_xml_output rs (base +:+ ".xml")) else ret tt) s
          = (inr tt, with_world s w1)) as ->.
  { subst w1. destruct bx; cbn [written].
    - by rewrite run_run, (create_xml_output_elems _ _ _ _ Helems).
    - by rewrite with_files_same, with_world_same. }
  rewrite bind_P_run.
  assert ((if bj then run (create_json_output rs (base +:+ ".json")) else ret tt)
            (with_world s w1) = (inr tt, with_world s w2)) as ->.
  { subst w2. destruct bj; cbn [written].
    - by rewrite run_run, create_json_output_ok.
    - by rewrite with_files_same. }
  rewrite bind_P_run.
  assert ((if bc then run (create_csv_output rs (base +:+ ".csv")) else ret tt)
            (with_world s w2)
          = (inr tt, with_world s
                       (with_files (world_of s)
                          (written bc (base +:+ ".csv") (csv_document rs) (files w2))))) as ->.
  { destruct bc; cbn [written].
    - rewrite run_run. cbn [world_of with_world].
      by rewrite (create_csv_output_rows _ _ _ Hcsv).
    - reflexivity. }
  destruct bst; [|reflexivity].
  unfold create_stats_output. rewrite !bind_P_run. unfold call, write_stats.
  by destruct (calculate_statistics rs).
Qed.

Lemma parse_geekbench_total net html_parser finish query max_pages threads w :
  exists rs w',
    parse_geekbench net html_parser finish query max_pages threads w = (inr rs, w') /\
    files w' = files w.
Proof.
  unfold parse_geekbench. rewrite try_except_run, bind_M_run.
  pose proof (discover_one_request net html_parser (search_url_of query) w) as Hone.
  destruct (discover net html_parser (search_url_of query) w) as [[e|total] w1].
  - cbn [snd] in Hone. subst w1. eexists _, _. split; reflexivity.
  - cbn [snd] in Hone. subst w1.
    destruct (Z_le_gt_dec threads 0) as [Hle|Hgt].
    + rewrite fetch_all_no_pool by done. eexists _, _. split; reflexivity.
    + rewrite fetch_all_records by lia. eexists _, _. split; reflexivity.
Qed.

Lemma parse_input_file_total path w :
  exists result, parse_input_file path w = (inr result, w).
Proof.
  unfold parse_input_file. destruct (files w !! path) as [content|]; [|by eexists].
  rewrite try_except_run.
  destruct (Py.endswith path ".json"); [destruct content; by eexists|].
  destruct (Py.endswith path ".xml"); [destruct content; by eexists|].
  destruct (Py.endswith path ".csv"); [destruct content; by eexists|].
  by eexists.
Qed.

Lemma write_outputs_no_exit results base bx bj bc bst s code s' :
  write_outputs results base bx bj bc bst s <> (inl (SystemExit code), s').
Proof.
  intros H.
  destruct (write_outputs_effect results base bx bj bc bst s)
    as (out & s2 & Hw & Hno & _).
  rewrite Hw in H. injection H as -> ->. by destruct (Hno code).
Qed.

(** X20: when [main] ends in [sys.exit], it has written nothing: no file
    and no statistics file. The status is 2 exactly when neither a query
    nor an input file is given, and then nothing at all has happened;
    otherwise it is 1, and with an input file not even a request was made. *)
Theorem main_exit_writes_nothing net html_parser finish args timestamp s code s' :
  main net html_parser finish args timestamp s = (inl (SystemExit code), s') ->
  files (world_of s') = files (world_of s) /\
  stats_files s' = stats_files s /\
  (code = 2 \/ code = 1) /\
  (code = 2 <->
   truthy (argparse.query args) = false /\ truthy (argparse.file args) = false) /\
  (code = 2 \/ truthy (argparse.file args) = true -> s' = s).
Proof.
  rewrite main_outputs.
  assert (Hfile : truthy (argparse.file args) = true ->
    (results <- (results <- run (parse_input_file
                                   (default EmptyString (argparse.file args))) ;;
                 match results with
                 | None => sys_exit 1
                 | Some results => ret results
                 end) ;;
     match results with
     | [] => sys_exit 1
     | _ :: _ =>
         write_outputs results (base_name_of args timestamp) (xml_selected args)
           (argparse.json args || argparse.all args)
           (argparse.csv args || argparse.all args)
           (argparse.stats args || argparse.all args)
     end) s = (inl (SystemExit code), s') ->
    code = 1 /\ s' = s).
  { intros _. rewrite !bind_P_run, run_run.
    destruct (parse_input_file_total (default EmptyString (argparse.file args))
                (world_of s)) as [result ->].
    cbn [fst snd]. rewrite with_world_same.
    destruct result as [[|r rs]|]; cbn [ret bind P_monad sys_exit];
      try (by intros [= <- <-]).
    intros H. by apply write_outputs_no_exit in H. }
  assert (Hscrape :
    (results <- run (parse_geekbench net html_parser finish
                       (default EmptyString (argparse.query args))
                       (argparse.pages args) (Z.max 1 (argparse.threads args))) ;;
     match results with
     | [] => sys_exit 1
     | _ :: _ =>
         write_outputs results (base_name_of args timestamp) (xml_selected args)
           (argparse.json args || argparse.all args)
           (argparse.csv args || argparse.all args)
           (argparse.stats args || argparse.all args)
     end) s = (inl (SystemExit code), s') ->
    code = 1 /\ files (world_of s') = files (world_of s) /\
    stats_files s' = stats_files s).
  { rewrite !bind_P_run, run_run.
    destruct (parse_geekbench_total net html_parser finish
                (default EmptyString (argparse.query args)) (argparse.pages args)
                (Z.max 1 (argparse.threads args)) (world_of s))
      as (rs & w' & -> & Hfiles).
    cbn [fst snd]. destruct rs as [|r rs]; cbn [sys_exit].
    - by intros [= <- <-].
    - intros H. by apply write_outputs_no_exit in H. }
  destruct (truthy (argparse.query args)) eqn:Hq,
           (truthy (argparse.file args)) eqn:Hf; cbn [negb andb].
  - intros H. destruct (Hfile eq_refl H) as [-> ->].
    repeat split; auto; try lia; try (by intros [? ?]).
  - intros H. destruct (Hscrape H) as (-> & ? & ?).
    repeat split; auto; try lia; try (by intros [? ?]); try (by intros [?|?]).
  - intros H. destruct (Hfile eq_refl H) as [-> ->].
    repeat split; auto; try lia; try (by intros [? ?]).
  - intros [= <- <-]. repeat split; auto.
Qed.

Lemma main_exit_writes_nothing_witness :
  main Sample.down (Sample.parsed Sample.mixed_page) Sample.in_order
       (query_args "sm-a566b") "20240101_120000" fresh_system
  = (inl (SystemExit 1),
     with_world fresh_system (logged Sample.start (search_url_of "sm-a566b"))) /\
  files (logged Sample.start (search_url_of "sm-a566b")) = files Sample.start.
Proof.
  assert (Hrun : main Sample.down (Sample.parsed Sample.mixed_page) Sample.in_order
                   (query_args "sm-a566b") "20240101_120000" fresh_system
                 = (inl (SystemExit 1),
                    with_world fresh_system (logged Sample.start (search_url_of "sm-a566b"))))
    by (vm_compute; reflexivity).
  split; [exact Hrun|].
  exact (proj1 (main_exit_writes_nothing _ _ _ _ _ _ _ _ Hrun)).
Defined.

Lemma calculate_statistics_str_scores (l : list record) e :
  Forall (fun r : record =>
            exists s m, r !! "single_core" = Some (PStr s) /\
                        r !! "multi_core" = Some (PStr m)) l ->
  calculate_statistics l = inl e -> e = ValueError.
Proof.
  intros Hl. unfold calculate_statistics.
  destruct (valid_scores l) as [e'|valid] eqn:Hv; [|discriminate].
  intros [= <-]. by eapply valid_scores_str_scores.
Qed.

(** A scraping run that found records, in full. *)
Lemma main_scrape_run net html_parser finish args timestamp s r rs w1 :
  truthy (argparse.query args) = true ->
  truthy (argparse.file args) = false ->
  parse_geekbench net html_parser finish (default EmptyString (argparse.query args))
                  (argparse.pages args) (Z.max 1 (argparse.threads args)) (world_of s)
  = (inr (r :: rs), w1) ->
  exists elems,
    for_each_res benchmark_elem (r :: rs) = inr elems /\
    let base :=
      str_or (argparse.output args)
        ("results_" +:+ timestamp +:+ "_"
           +:+ safe_filename_component (default EmptyString (argparse.query args))) in
    let fs :=
      written (argparse.csv args || argparse.all args)
        (base +:+ ".csv") (csv_document (r :: rs))
        (written (argparse.json args || argparse.all args)
           (base +:+ ".json") (DJson (json.dump (r :: rs)))
           (written (xml_selected args)
              (base +:+ ".xml") (xml_document elems) (files (world_of s)))) in
    let w' := with_files w1 fs in
    let out := main net html_parser finish args timestamp s in
    (argparse.stats args || argparse.all args = false ->
     out = (inr tt, with_world s w')) /\
    (argparse.stats args || argparse.all args = true ->
     forall st, calculate_statistics (r :: rs) = inr st ->
     out = (inr tt, {| world_of := w';
                       stats_files := <[base +:+ "_stats.json" := st]> (stats_files s) |})) /\
    (argparse.stats args || argparse.all args = true ->
     forall e, calculate_statistics (r :: rs) = inl e ->
     e = ValueError /\ out = (inl (Uncaught ValueError), with_world s w')).
Proof.
  intros Hq Hf Hrun.
  assert (Hfst : (parse_geekbench net html_parser finish
                    (default EmptyString (argparse.query args)) (argparse.pages args)
                    (Z.max 1 (argparse.threads args)) (world_of s)).1 = inr (r :: rs))
    by (by rewrite Hrun).
  destruct (scraped_shape _ _ _ _ _ _ _ _ Hfst) as (Hdom & Htext & Hscores).
  destruct (five_keys_in_header _ Hdom) as [_ Hcsv].
  destruct (parse_geekbench_total net html_parser finish
              (default EmptyString (argparse.query args)) (argparse.pages args)
              (Z.max 1 (argparse.threads args)) (world_of s))
    as (rs' & w1' & Hrun' & Hfiles).
  rewrite Hrun in Hrun'. injection Hrun' as <- <-.
  destruct (write_outputs_writable (r :: rs) (base_name_of args timestamp)
              (xml_selected args) (argparse.json args || argparse.all args)
              (argparse.csv args || argparse.all args)
              (argparse.stats args || argparse.all args) (with_world s w1) Htext Hcsv)
    as (elems & Helems & Hout).
  exists elems. split; [exact Helems|]. cbn zeta in Hout |- *.
  rewrite main_outputs, Hq, Hf. cbn [negb andb].
  rewrite bind_P_run, run_run, Hrun. cbn [fst snd]. rewrite Hout.
  unfold base_name_of. rewrite Hf. cbn [world_of with_world stats_files].
  rewrite Hfiles.
  destruct (argparse.stats args || argparse.all args).
  - split; [discriminate|]. split.
    + intros _ st ->. reflexivity.
    + intros _ e He. pose proof (calculate_statistics_str_scores _ _ Hscores He) as ->.
      split; [reflexivity|]. by rewrite He.
  - split; [reflexivity|]. split; discriminate.
Qed.





Lemma length_append (a b : string) :
  String.length (a +:+ b) = (String.length a + String.length b)%nat.
Proof.
  induction a as [|c a IH]; [done|].
  change (S (String.length (a +:+ b)) = S (String.length a + String.length b)).
  by rewrite IH.
Qed.

Lemma substring_all (b : string) : substring 0 (String.length b) b = b.
Proof. induction b as [|c b IH]; [done|]. cbn. by rewrite IH. Qed.

Lemma substring_append (a b : string) :
  substring (String.length a) (String.length b) (a +:+ b) = b.
Proof. induction a as [|c a IH]; [apply substring_all|]. exact IH. Qed.

Lemma endswith_append (a b : string) : Py.endswith (a +:+ b) b = true.
Proof.
  unfold Py.endswith. rewrite length_append.
  assert ((String.length b <=? String.length a + String.length b)%nat = true) as ->
    by (apply Nat.leb_le; lia).
  replace (String.length a + String.length b - String.length b)%nat
    with (String.length a) by lia.
  rewrite substring_append. apply String.eqb_refl.
Qed.

Lemma truthy_append (a : string) c b : truthy (Some (a +:+ String c b)) = true.
Proof. by destruct a. Qed.

Lemma csv_path_not_json (base : string) : base +:+ ".csv" <> base +:+ ".json".
Proof. intros H. apply (inj (String.app base)) in H. discriminate H. Qed.

(** X23: a run on the JSON file of an earlier run copies it. When a
    scraping run with JSON selected has returned, a second run that is
    given that JSON file as input and selects JSON returns normally, makes
    no request, and writes under its own base name the very document the
    first run wrote. *)
Theorem main_json_rerun net html_parser finish args timestamp s s1
        net' html_parser' finish' c o timestamp' :
  truthy (argparse.file args) = false ->
  argparse.json args || argparse.all args = true ->
  main net html_parser finish args timestamp s = (inr tt, s1) ->
  let base :=
    str_or (argparse.output args)
      ("results_" +:+ timestamp +:+ "_"
         +:+ safe_filename_component (default EmptyString (argparse.query args))) in
  exists d,
    files (world_of s1) !! (base +:+ ".json") = Some d /\
    main net' html_parser' finish' (file_to_json_args (base +:+ ".json") (String c o))
         timestamp' s1
    = (inr tt,
       with_world s1
         (with_files (world_of s1)
            (<[String c o +:+ ".json" := d]> (files (world_of s1))))).
Proof.
  intros Hf Hjson Hrun base.
  destruct (truthy (argparse.query args)) eqn:Hq.
  2: { rewrite main_outputs, Hq, Hf in Hrun. discriminate Hrun. }
  destruct (parse_geekbench_total net html_parser finish
              (default EmptyString (argparse.query args)) (argparse.pages args)
              (Z.max 1 (argparse.threads args)) (world_of s))
    as (rs0 & w1 & Hscrape & _).
  destruct rs0 as [|r rs].
  { rewrite main_outputs, Hq, Hf in Hrun. cbn [negb andb] in Hrun.
    rewrite bind_P_run, run_run, Hscrape in Hrun. discriminate Hrun. }
  destruct (main_scrape_run net html_parser finish args timestamp s r rs w1 Hq Hf Hscrape)
    as (elems & _ & Hout). cbn zeta in Hout. fold base in Hout.
  rewrite Hjson in Hout. cbn [written] in Hout.
  assert (Hworld : files (world_of s1) !! (base +:+ ".json")
                   = Some (DJson (json.dump (r :: rs)))).
  { assert (Hfs : forall fs : gmap string document,
      written (argparse.csv args || argparse.all args) (base +:+ ".csv")
        (csv_document (r :: rs)) (<[base +:+ ".json" := DJson (json.dump (r :: rs))]> fs)
      !! (base +:+ ".json") = Some (DJson (json.dump (r :: rs)))).
    { intros fs. unfold written.
      destruct (argparse.csv args || argparse.all args).
      - rewrite lookup_insert_ne by apply csv_path_not_json. apply lookup_insert_eq.
      - apply lookup_insert_eq. }
    destruct Hout as (Hno & Hyes & Herr).
    destruct (argparse.stats args || argparse.all args).
    - destruct (calculate_statistics (r :: rs)) as [e|st] eqn:Hst.
      + destruct (Herr eq_refl e eq_refl) as [_ Hbad]. rewrite Hrun in Hbad.
        discriminate Hbad.
      + specialize (Hyes eq_refl st eq_refl). rewrite Hrun in Hyes.
        injection Hyes as ->. apply Hfs.
    - specialize (Hno eq_refl). rewrite Hrun in Hno. injection Hno as ->. apply Hfs. }
  exists (DJson (json.dump (r :: rs))). split; [exact Hworld|].
  rewrite main_outputs. cbn [file_to_json_args argparse.query argparse.file].
  rewrite truthy_append. cbn [truthy negb andb default].
  rewrite !bind_P_run, run_run. unfold id.
  rewrite (parse_input_file_json _ _ _ Hworld (endswith_append base ".json")).
  rewrite json_load_dump. cbn [fst snd]. rewrite with_world_same.
  unfold base_name_of. cbn [file_to_json_args argparse.file].
  rewrite truthy_append. reflexivity.
Qed.

Lemma main_json_rerun_witness :
  let args := {| argparse.query := Some "sm-a566b"; argparse.threads := 1;
                 argparse.pages := None; argparse.file := None;
                 argparse.output := None; argparse.json := true;
                 argparse.stats := false; argparse.csv := false;
                 argparse.xml := false; argparse.all := false |} in
  let s1 := (main (Sample.answer 200 "<html>") (Sample.parsed Sample.mixed_page)
                  Sample.in_order args "20240101_120000" fresh_system).2 in
  exists d,
    files (world_of s1) !! "results_20240101_120000_sm-a566b.json" = Some d /\
    main Sample.down (Sample.parsed Sample.bare_page) Sample.in_order
         (file_to_json_args "results_20240101_120000_sm-a566b.json" "copy")
         "20240102_120000" s1
    = (inr tt,
       with_world s1
         (with_files (world_of s1) (<["copy.json" := d]> (files (world_of s1))))).
Proof.
  intros args s1.
  exact (main_json_rerun (Sample.answer 200 "<html>") (Sample.parsed Sample.mixed_page)
           Sample.in_order args "20240101_120000" fresh_system s1
           Sample.down (Sample.parsed Sample.bare_page) Sample.in_order
           "c" "opy" "20240102_120000" eq_refl eq_refl
           ltac:(vm_compute; reflexivity)).
Defined.

(** X24: an input file is not validated. When the JSON file given as input
    holds a record that lacks one of [system], [model], [single_core] and
    [multi_core], and XML is written (selected, or nothing is), [main]
    stops with an uncaught [KeyError] for the first missing field before
    any file is written. *)
Theorem main_file_missing_field net html_parser finish args timestamp s
        (f : string) (good rest : list record) (b : record) :
  argparse.file args = Some f ->
  Py.endswith f ".json" = true ->
  files (world_of s) !! f = Some (DJson (json.dump (good ++ b :: rest))) ->
  xml_selected args = true ->
  Forall has_text_fields good -> ¬ has_text_fields b ->
  exists k,
    main net html_parser finish args timestamp s = (inl (Uncaught (KeyError k)), s) /\
    b !! k = None /\
    k ∈ ["system"; "model"; "single_core"; "multi_core"].
Proof.
  intros Hfile Hends Hdoc Hxml Hgood Hb.
  destruct (benchmark_elem_missing b Hb) as (k & Hk & Hnone & Hin).
  exists k. split; [|done].
  assert (Hf : truthy (argparse.file args) = true).
  { rewrite Hfile. destruct f; [|done].
    vm_compute in Hends. discriminate Hends. }
  rewrite main_outputs, Hf, andb_false_r, Hfile. cbn [default from_option id].
  rewrite !bind_P_run, run_run.
  rewrite (parse_input_file_json _ _ _ Hdoc Hends), json_load_dump.
  cbn [fst snd]. rewrite with_world_same.
  destruct (good ++ b :: rest) as [|r0 rs0] eqn:Hlist.
  { by destruct good. }
  cbn [ret P_monad]. rewrite <- Hlist. unfold write_outputs.
  rewrite Hxml, bind_P_run, run_run.
  unfold create_xml_output. rewrite bind_M_run. unfold lift at 1 2.
  rewrite (for_each_res_app_error benchmark_elem good rest b (KeyError k)).
  - cbn [fst snd]. by rewrite with_world_same.
  - eapply Forall_impl; [exact Hgood|]. intros r Hr.
    destruct (benchmark_elem_reread r Hr) as (elem & Helem & _). eauto.
  - exact Hk.
Qed.

Lemma main_file_missing_field_witness :
  let records := [Sample.well_formed_record; (delete "model" Sample.na_record : record)] in
  let s := {| world_of := {| requests := [];
                             files := {[ "results.json" := DJson (json.dump records) ]} |};
              stats_files := ∅ |} in
  let args := {| argparse.query := None; argparse.threads := 1;
                 argparse.pages := None; argparse.file := Some "results.json";
                 argparse.output := None; argparse.json := false;
                 argparse.stats := false; argparse.csv := false;
                 argparse.xml := false; argparse.all := false |} in
  exists k,
    main Sample.down (Sample.parsed Sample.bare_page) Sample.in_order
         args "20240101_120000" s
    = (inl (Uncaught (KeyError k)), s).
Proof.
  intros records s args.
  destruct (main_file_missing_field Sample.down (Sample.parsed Sample.bare_page)
              Sample.in_order args "20240101_120000" s "results.json"
              [Sample.well_formed_record] [] (delete "model" Sample.na_record))
    as (k & Hrun & _).
  - reflexivity.
  - reflexivity.
  - reflexivity.
  - reflexivity.
  - constructor; [|constructor]. repeat split; vm_compute; eauto.
  - intros (_ & [v Hv] & _). vm_compute in Hv. discriminate Hv.
  - exists k. exact Hrun.
Defined.


